(** * The message-dispatch engine of the [server] package

    A shallow embedding of [server/server.go], [server/options.go] and
    [server/conn.go]: the connection adapter, the functional options, the
    envelope queue of every shard, the dispatch boundary and the
    lifecycle ([New], [Run], [Shutdown]).

    Go code mutates one [*Server] from several goroutines.  Here every
    operation is a computation over the [Server] record in a small state
    and outcome monad [M]: a computation ends by returning, by raising a
    panic, or by blocking for ever on a channel.  What the engine does to
    the outside world (log lines, hooks fired, transports closed) is
    appended to the ghost field [effects] in program order. *)

From Stdlib Require Import ZArith List Lia Strings.Byte.
From stdpp Require Import base option list gmap strings.

Local Open Scope string_scope.
Local Open Scope Z_scope.

(** ** Values that travel through the engine *)

(** Error values.  [errors.go] is not among the sources: the named errors
    are the ones the three files refer to; [ErrRuntime] stands for the
    [runtime.Error] the Go runtime raises (it implements [error]), and
    [ErrExternal] for an error returned by a transport library. *)
Inductive error : Type :=
| ErrConstructed
| ErrCanNotSupportNetwork
| ErrWebsocketIllegalMessageType
| ErrWebsocketMessageTypeException
| ErrNotWebsocketUseMessageType
| ErrWrongMessageAttrs
| ErrRuntime (what : string)
| ErrExternal (what : string).

(** What [recover()] hands back: Go panics carry a value of any type, and
    the dispatch boundary asks whether that value is an [error]. *)
Inductive PanicValue : Type :=
| PanicError (e : error)
| PanicOther (v : string).

Definition nilDereference : PanicValue :=
  PanicError (ErrRuntime "invalid memory address or nil pointer dereference").
Definition sendOnClosedChannel : PanicValue :=
  PanicError (ErrRuntime "send on closed channel").
Definition closeOfClosedChannel : PanicValue :=
  PanicError (ErrRuntime "close of closed channel").

(** [type Network string]: the kinds [Run] switches over, and any other
    string. *)
Inductive Network : Type :=
| NetworkTcp | NetworkTcp4 | NetworkTcp6
| NetworkUdp | NetworkUdp4 | NetworkUdp6
| NetworkUnix
| NetworkHttp
| NetworkWebsocket
| NetworkKcp
| NetworkGRPC
| NetworkOther (name : string).

(** [options.go], lines 11-22. *)
Definition WebsocketMessageTypeText : Z := 1.
Definition WebsocketMessageTypeBinary : Z := 2.
Definition WebsocketMessageTypeClose : Z := 8.
Definition WebsocketMessageTypePing : Z := 9.
Definition WebsocketMessageTypePong : Z := 10.

(** The constant of the websocket library that [conn.go] writes with; the
    library numbers its frame types as the RFC does, and [options.go]
    repeats those numbers. *)
Definition websocket_BinaryMessage : Z := 2.

(** The case list shared by both WebSocket options. *)
Definition isWebsocketMessageType (messageType : Z) : bool :=
  (messageType =? WebsocketMessageTypeText)
  || (messageType =? WebsocketMessageTypeBinary)
  || (messageType =? WebsocketMessageTypeClose)
  || (messageType =? WebsocketMessageTypePing)
  || (messageType =? WebsocketMessageTypePong).

(** [type MessageType int] and [type MessageErrorAction]: [message.go] is
    not among the sources, so the numbers behind the names are taken as
    parameters of the development.  Go rejects a [switch] with two equal
    constant cases, which is where the distinctness assumptions of the
    proofs come from. *)
Class MessageConstants : Type := {
  MessageTypePacket : Z;
  MessageTypeError : Z;
  MessageTypeCross : Z;
  MessageTypeTicker : Z;
  MessageErrorActionNone : Z;
  MessageErrorActionShutdown : Z
}.

(** Transport handles ([*websocket.Conn], [gnet.Conn], [*kcp.UDPSession])
    and connections ([*Conn]) are pointers; they are told apart by
    address. *)
Definition Handle : Type := N.
Definition ConnPtr : Type := N.

(** The dynamically typed attributes of an envelope ([attrs ...any]). *)
Inductive Attr : Type :=
| AError (e : error)
| AAction (action : Z)
| AString (s : string)
| AConn (conn : ConnPtr)
| ABytes (packet : list Byte.byte)
| AInt (n : Z)
| AInt64 (n : Z)
| AFunc (caller : N)
| ANil.

(** [type Message struct { t MessageType; attrs []any }] *)
Record Message : Type := {
  t : Z;
  attrs : list Attr
}.

(** ** Connections ([conn.go]) *)

(** A call into a transport library. *)
Inductive TransportCall : Type :=
| WsWriteMessage (h : Handle) (messageType : Z) (data : list Byte.byte)
| WsClose (h : Handle)
| GnAsyncWrite (h : Handle) (data : list Byte.byte)
| GnClose (h : Handle)
| KcpWrite (h : Handle) (data : list Byte.byte)
| KcpClose (h : Handle).

Record Conn : Type := {
  ip : string;
  ws : option Handle;
  gn : option Handle;
  kcp : option Handle;
  write : option (list Byte.byte -> TransportCall);
  data : gmap string (list string)
}.

Definition newKcpConn (session : Handle) (remoteAddr : string) : Conn :=
  {| ip := remoteAddr; ws := None; gn := None; kcp := Some session;
     write := Some (fun data => KcpWrite session data);
     data := ∅ |}.

Definition newGNetConn (conn : Handle) (remoteAddr : string) : Conn :=
  {| ip := remoteAddr; ws := None; gn := Some conn; kcp := None;
     write := Some (fun data => GnAsyncWrite conn data);
     data := ∅ |}.

Definition newWebsocketConn (ws0 : Handle) (ip0 : string) : Conn :=
  {| ip := ip0; ws := Some ws0; gn := None; kcp := None;
     write := Some (fun data => WsWriteMessage ws0 websocket_BinaryMessage data);
     data := ∅ |}.

Definition GetID (slf : Conn) : string := ip slf.

(** The outcome of a method of [Conn]: the calls it made into the
    transport, and whether it came back or panicked.  The error a write
    returns is the transport's, handed through verbatim. *)
Inductive ConnOutcome : Type :=
| ConnReturns (calls : list TransportCall)
| ConnPanics (v : PanicValue) (calls : list TransportCall).

(** [func (slf *Conn) Write(data []byte) error { return slf.write(data) }]:
    calling a nil func value is a nil dereference. *)
Definition Conn_Write (slf : Conn) (data0 : list Byte.byte) : ConnOutcome :=
  match write slf with
  | Some f => ConnReturns [f data0]
  | None => ConnPanics nilDereference []
  end.

Definition Conn_Close (slf : Conn) : Conn * list TransportCall :=
  let calls :=
    match ws slf, gn slf, kcp slf with
    | Some h, _, _ => [WsClose h]
    | None, Some h, _ => [GnClose h]
    | None, None, Some h => [KcpClose h]
    | None, None, None => []
    end in
  ({| ip := ip slf; ws := ws slf; gn := gn slf; kcp := kcp slf;
      write := None; data := data slf |}, calls).

Definition SetData (key : string) (value : list string) (slf : Conn) : Conn :=
  {| ip := ip slf; ws := ws slf; gn := gn slf; kcp := kcp slf;
     write := write slf; data := <[key := value]> (data slf) |}.

Definition GetData (key : string) (slf : Conn) : option (list string) :=
  data slf !! key.

Definition ReleaseData (slf : Conn) : Conn :=
  {| ip := ip slf; ws := ws slf; gn := gn slf; kcp := kcp slf;
     write := write slf; data := ∅ |}.

(** ** The envelope pool *)

(** Modelled from the spec: [synchronization.Pool] lives in a package that
    is not among the sources.  The spec (section 4.2) gives its contract:
    [Get() -> Envelope] reuses a released envelope or allocates,
    [Release(Envelope)] resets kind and attributes and returns the
    envelope to the free list, [Close()] drains the pool and rejects
    further reuse.  The generator and the releaser are the two closures
    [Run] passes to [NewPool] (server.go, lines 105-111).

    An envelope is a [*Message] in Go.  It has one holder at a time (the
    free list, one slot of one queue, or the goroutine that stamps or
    dispatches it), so the struct is passed by value here and the
    assignments to its fields build the next value. *)
Record Pool : Type := {
  free : list Message;
  bufferSize : Z;
  generator : unit -> Message;
  releaser : Message -> Message;
  poolClosed : bool
}.

Definition NewPool (size : Z) (gen : unit -> Message)
    (rel : Message -> Message) : Pool :=
  {| free := []; bufferSize := size; generator := gen; releaser := rel;
     poolClosed := false |}.

Definition Pool_Get (p : Pool) : Message * Pool :=
  match free p with
  | m :: rest =>
      (m, {| free := rest; bufferSize := bufferSize p;
             generator := generator p; releaser := releaser p;
             poolClosed := poolClosed p |})
  | [] => (generator p tt, p)
  end.

Definition Pool_Release (m : Message) (p : Pool) : Pool :=
  if poolClosed p then p
  else {| free := free p ++ [releaser p m]; bufferSize := bufferSize p;
          generator := generator p; releaser := releaser p;
          poolClosed := false |}.

Definition Pool_Close (p : Pool) : Pool :=
  {| free := []; bufferSize := bufferSize p; generator := generator p;
     releaser := releaser p; poolClosed := true |}.

(** The two closures of server.go, lines 105-111:
    [func() *Message { return &Message{} }] and
    [func(data *Message) { data.t = 0; data.attrs = nil }]. *)
Definition messageGenerator (_ : unit) : Message := {| t := 0; attrs := [] |}.
Definition messageReleaser (data0 : Message) : Message := {| t := 0; attrs := [] |}.

(** ** Channels *)

(** [chan *Message] with a buffer: the queue of one shard. *)
Record Chan : Type := {
  queue : list Message;
  capacity : Z;
  closed : bool
}.

Definition makeChan (cap : Z) : Chan :=
  {| queue := []; capacity := cap; closed := false |}.

(** [closeChannel chan struct{}] is unbuffered, and its one reader is
    the [select] at the end of [Run].  A send gets through only while
    that reader is parked there. *)
Record SignalChan : Type := {
  signalClosed : bool;
  receiverParked : bool
}.

(** ** Options, hooks and effects *)

Record Ticker : Type := { tickerSize : Z; autonomous : bool }.

(** A cross-server collaborator ([Cross] is an interface); [crossInit] is
    what its [Init] answers. *)
Record Cross : Type := { crossAddress : N; crossInit : option error }.

(** [type Option func(srv *Server)]: the nine closures of options.go, by
    the constructor that builds them. *)
Inductive Option : Type :=
| WithTicker (size : Z) (autonomy : bool)
| WithCross (crossName : string) (serverId : Z) (cross0 : Cross)
| WithTLS (certFile0 keyFile0 : string)
| WithGRPCServerOptions (serverOptions : list string)
| WithProd
| WithWebsocketWriteMessageType (messageType : Z)
| WithWebsocketMessageType (messageTypes : list Z)
| WithMessageBufferSize (size : Z)
| WithMultiCore (count : Z).

(** One firing of the registered handlers of a hook ([event.go] is not
    among the sources), or of a ticker callback carried by an envelope. *)
Inductive HookCall : Type :=
| StartBefore
| StartFinish
| ConnectionOpened (conn : ConnPtr)
| ConnectionClosed (conn : ConnPtr)
| ConnectionReceivePacket (conn : ConnPtr) (packet : list Byte.byte)
| ConnectionReceiveWebsocketPacket (conn : ConnPtr) (packet : list Byte.byte)
    (messageType : Z)
| ReceiveCrossPacket (serverId : Z) (packet : list Byte.byte)
| MessageError (message : Message) (err : error)
| MessageLowExec (message : Message) (cost : Z)
| TickerCaller (caller : N).

(** Goroutines started by [go]. *)
Inductive Task : Type :=
| GrpcServe
| ConnectionInit (callback : Task)
| GnetServe
| KcpAccept
| HttpServe
| WebsocketListen
| WebsocketServe
| ConnectionRead (conn : ConnPtr)
| DispatchLoop (shard : Z).

(** What the engine does to the world outside the [Server] struct, one
    constructor per call site. *)
Inductive Effect : Type :=
| Fired (h : HookCall)
| Transport (call : TransportCall)
| Go (task : Task)
| LogHandlerFault (messageType : Z) (messageAttrs : list Attr) (fault : PanicValue)
| LogLowExecCost (messageType : Z) (cost : Z) (messageAttrs : list Attr)
| LogErrorWithStack (stack : string) (err : error)
| LogActionNotSupported (action : Z)
| LogTypeNotSupported (messageType : Z)
| LogRunningInfo (network0 : Network) (listen : string)
| LogStopFailed (err : error)
| LogShutdownException (stack : string) (err : error)
| LogShutdownNormal
| LogOptionWarning (option0 : string) (value : Z) (err : option error)
| LogCrossInitFailed (serverId : Z)
| SetProd
| HandleFunc (pattern : string)
| TickerRelease
| CrossRelease (crossName : string)
| GnetStop (protoAddr : Network * string)
| GrpcGracefulStop
| HttpShutdown.

(** ** The server *)

(** [type Server struct], field by field (server.go, lines 53-78), and two
    ghost fields. *)
Record Server : Type := {
  event : bool;  (* [*event], nil or not *)
  cross : gmap string Cross;
  id : Z;
  network : Network;
  addr : string;
  options : list Option;
  ginServer : bool;  (* the pointers below: nil or not *)
  httpServer : bool;
  grpcServer : option (list string);
  supportMessageTypes : gmap Z bool;
  certFile : string;
  keyFile : string;
  isShutdown : bool;  (* [atomic.Bool] *)
  closeChannel : SignalChan;
  gServer : bool;
  messagePool : option Pool;
  messagePoolSize : Z;
  messageChannel : gmap Z Chan;
  initMessageChannel : bool;
  multiple : bool;
  prod : bool;
  core : Z;
  websocketWriteMessageType : Z;
  ticker : option Ticker;
  conns : gmap ConnPtr Conn;  (* ghost: the connections on the heap *)
  effects : list Effect  (* ghost: what was done to the outside, oldest first *)
}.

(** Assignments to one field. *)
Definition set_cross (v : gmap string Cross) (s : Server) : Server :=
  {| event := event s; cross := v; id := id s; network := network s;
     addr := addr s; options := options s; ginServer := ginServer s;
     httpServer := httpServer s; grpcServer := grpcServer s;
     supportMessageTypes := supportMessageTypes s; certFile := certFile s;
     keyFile := keyFile s; isShutdown := isShutdown s;
     closeChannel := closeChannel s; gServer := gServer s;
     messagePool := messagePool s; messagePoolSize := messagePoolSize s;
     messageChannel := messageChannel s;
     initMessageChannel := initMessageChannel s; multiple := multiple s;
     prod := prod s; core := core s;
     websocketWriteMessageType := websocketWriteMessageType s;
     ticker := ticker s; conns := conns s; effects := effects s |}.
Definition set_id (v : Z) (s : Server) : Server :=
  {| event := event s; cross := cross s; id := v; network := network s;
     addr := addr s; options := options s; ginServer := ginServer s;
     httpServer := httpServer s; grpcServer := grpcServer s;
     supportMessageTypes := supportMessageTypes s; certFile := certFile s;
     keyFile := keyFile s; isShutdown := isShutdown s;
     closeChannel := closeChannel s; gServer := gServer s;
     messagePool := messagePool s; messagePoolSize := messagePoolSize s;
     messageChannel := messageChannel s;
     initMessageChannel := initMessageChannel s; multiple := multiple s;
     prod := prod s; core := core s;
     websocketWriteMessageType := websocketWriteMessageType s;
     ticker := ticker s; conns := conns s; effects := effects s |}.
Definition set_addr (v : string) (s : Server) : Server :=
  {| event := event s; cross := cross s; id := id s; network := network s;
     addr := v; options := options s; ginServer := ginServer s;
     httpServer := httpServer s; grpcServer := grpcServer s;
     supportMessageTypes := supportMessageTypes s; certFile := certFile s;
     keyFile := keyFile s; isShutdown := isShutdown s;
     closeChannel := closeChannel s; gServer := gServer s;
     messagePool := messagePool s; messagePoolSize := messagePoolSize s;
     messageChannel := messageChannel s;
     initMessageChannel := initMessageChannel s; multiple := multiple s;
     prod := prod s; core := core s;
     websocketWriteMessageType := websocketWriteMessageType s;
     ticker := ticker s; conns := conns s; effects := effects s |}.
Definition set_grpcServer (v : option (list string)) (s : Server) : Server :=
  {| event := event s; cross := cross s; id := id s; network := network s;
     addr := addr s; options := options s; ginServer := ginServer s;
     httpServer := httpServer s; grpcServer := v;
     supportMessageTypes := supportMessageTypes s; certFile := certFile s;
     keyFile := keyFile s; isShutdown := isShutdown s;
     closeChannel := closeChannel s; gServer := gServer s;
     messagePool := messagePool s; messagePoolSize := messagePoolSize s;
     messageChannel := messageChannel s;
     initMessageChannel := initMessageChannel s; multiple := multiple s;
     prod := prod s; core := core s;
     websocketWriteMessageType := websocketWriteMessageType s;
     ticker := ticker s; conns := conns s; effects := effects s |}.
Definition set_supportMessageTypes (v : gmap Z bool) (s : Server) : Server :=
  {| event := event s; cross := cross s; id := id s; network := network s;
     addr := addr s; options := options s; ginServer := ginServer s;
     httpServer := httpServer s; grpcServer := grpcServer s;
     supportMessageTypes := v; certFile := certFile s; keyFile := keyFile s;
     isShutdown := isShutdown s; closeChannel := closeChannel s;
     gServer := gServer s; messagePool := messagePool s;
     messagePoolSize := messagePoolSize s;
     messageChannel := messageChannel s;
     initMessageChannel := initMessageChannel s; multiple := multiple s;
     prod := prod s; core := core s;
     websocketWriteMessageType := websocketWriteMessageType s;
     ticker := ticker s; conns := conns s; effects := effects s |}.
Definition set_certFile (v : string) (s : Server) : Server :=
  {| event := event s; cross := cross s; id := id s; network := network s;
     addr := addr s; options := options s; ginServer := ginServer s;
     httpServer := httpServer s; grpcServer := grpcServer s;
     supportMessageTypes := supportMessageTypes s; certFile := v;
     keyFile := keyFile s; isShutdown := isShutdown s;
     closeChannel := closeChannel s; gServer := gServer s;
     messagePool := messagePool s; messagePoolSize := messagePoolSize s;
     messageChannel := messageChannel s;
     initMessageChannel := initMessageChannel s; multiple := multiple s;
     prod := prod s; core := core s;
     websocketWriteMessageType := websocketWriteMessageType s;
     ticker := ticker s; conns := conns s; effects := effects s |}.
Definition set_keyFile (v : string) (s : Server) : Server :=
  {| event := event s; cross := cross s; id := id s; network := network s;
     addr := addr s; options := options s; ginServer := ginServer s;
     httpServer := httpServer s; grpcServer := grpcServer s;
     supportMessageTypes := supportMessageTypes s; certFile := certFile s;
     keyFile := v; isShutdown := isShutdown s;
     closeChannel := closeChannel s; gServer := gServer s;
     messagePool := messagePool s; messagePoolSize := messagePoolSize s;
     messageChannel := messageChannel s;
     initMessageChannel := initMessageChannel s; multiple := multiple s;
     prod := prod s; core := core s;
     websocketWriteMessageType := websocketWriteMessageType s;
     ticker := ticker s; conns := conns s; effects := effects s |}.
Definition set_isShutdown (v : bool) (s : Server) : Server :=
  {| event := event s; cross := cross s; id := id s; network := network s;
     addr := addr s; options := options s; ginServer := ginServer s;
     httpServer := httpServer s; grpcServer := grpcServer s;
     supportMessageTypes := supportMessageTypes s; certFile := certFile s;
     keyFile := keyFile s; isShutdown := v; closeChannel := closeChannel s;
     gServer := gServer s; messagePool := messagePool s;
     messagePoolSize := messagePoolSize s;
     messageChannel := messageChannel s;
     initMessageChannel := initMessageChannel s; multiple := multiple s;
     prod := prod s; core := core s;
     websocketWriteMessageType := websocketWriteMessageType s;
     ticker := ticker s; conns := conns s; effects := effects s |}.
Definition set_closeChannel (v : SignalChan) (s : Server) : Server :=
  {| event := event s; cross := cross s; id := id s; network := network s;
     addr := addr s; options := options s; ginServer := ginServer s;
     httpServer := httpServer s; grpcServer := grpcServer s;
     supportMessageTypes := supportMessageTypes s; certFile := certFile s;
     keyFile := keyFile s; isShutdown := isShutdown s; closeChannel := v;
     gServer := gServer s; messagePool := messagePool s;
     messagePoolSize := messagePoolSize s;
     messageChannel := messageChannel s;
     initMessageChannel := initMessageChannel s; multiple := multiple s;
     prod := prod s; core := core s;
     websocketWriteMessageType := websocketWriteMessageType s;
     ticker := ticker s; conns := conns s; effects := effects s |}.
Definition set_gServer (v : bool) (s : Server) : Server :=
  {| event := event s; cross := cross s; id := id s; network := network s;
     addr := addr s; options := options s; ginServer := ginServer s;
     httpServer := httpServer s; grpcServer := grpcServer s;
     supportMessageTypes := supportMessageTypes s; certFile := certFile s;
     keyFile := keyFile s; isShutdown := isShutdown s;
     closeChannel := closeChannel s; gServer := v;
     messagePool := messagePool s; messagePoolSize := messagePoolSize s;
     messageChannel := messageChannel s;
     initMessageChannel := initMessageChannel s; multiple := multiple s;
     prod := prod s; core := core s;
     websocketWriteMessageType := websocketWriteMessageType s;
     ticker := ticker s; conns := conns s; effects := effects s |}.
Definition set_messagePool (v : option Pool) (s : Server) : Server :=
  {| event := event s; cross := cross s; id := id s; network := network s;
     addr := addr s; options := options s; ginServer := ginServer s;
     httpServer := httpServer s; grpcServer := grpcServer s;
     supportMessageTypes := supportMessageTypes s; certFile := certFile s;
     keyFile := keyFile s; isShutdown := isShutdown s;
     closeChannel := closeChannel s; gServer := gServer s; messagePool := v;
     messagePoolSize := messagePoolSize s;
     messageChannel := messageChannel s;
     initMessageChannel := initMessageChannel s; multiple := multiple s;
     prod := prod s; core := core s;
     websocketWriteMessageType := websocketWriteMessageType s;
     ticker := ticker s; conns := conns s; effects := effects s |}.
Definition set_messagePoolSize (v : Z) (s : Server) : Server :=
  {| event := event s; cross := cross s; id := id s; network := network s;
     addr := addr s; options := options s; ginServer := ginServer s;
     httpServer := httpServer s; grpcServer := grpcServer s;
     supportMessageTypes := supportMessageTypes s; certFile := certFile s;
     keyFile := keyFile s; isShutdown := isShutdown s;
     closeChannel := closeChannel s; gServer := gServer s;
     messagePool := messagePool s; messagePoolSize := v;
     messageChannel := messageChannel s;
     initMessageChannel := initMessageChannel s; multiple := multiple s;
     prod := prod s; core := core s;
     websocketWriteMessageType := websocketWriteMessageType s;
     ticker := ticker s; conns := conns s; effects := effects s |}.
Definition set_messageChannel (v : gmap Z Chan) (s : Server) : Server :=
  {| event := event s; cross := cross s; id := id s; network := network s;
     addr := addr s; options := options s; ginServer := ginServer s;
     httpServer := httpServer s; grpcServer := grpcServer s;
     supportMessageTypes := supportMessageTypes s; certFile := certFile s;
     keyFile := keyFile s; isShutdown := isShutdown s;
     closeChannel := closeChannel s; gServer := gServer s;
     messagePool := messagePool s; messagePoolSize := messagePoolSize s;
     messageChannel := v; initMessageChannel := initMessageChannel s;
     multiple := multiple s; prod := prod s; core := core s;
     websocketWriteMessageType := websocketWriteMessageType s;
     ticker := ticker s; conns := conns s; effects := effects s |}.
Definition set_initMessageChannel (v : bool) (s : Server) : Server :=
  {| event := event s; cross := cross s; id := id s; network := network s;
     addr := addr s; options := options s; ginServer := ginServer s;
     httpServer := httpServer s; grpcServer := grpcServer s;
     supportMessageTypes := supportMessageTypes s; certFile := certFile s;
     keyFile := keyFile s; isShutdown := isShutdown s;
     closeChannel := closeChannel s; gServer := gServer s;
     messagePool := messagePool s; messagePoolSize := messagePoolSize s;
     messageChannel := messageChannel s; initMessageChannel := v;
     multiple := multiple s; prod := prod s; core := core s;
     websocketWriteMessageType := websocketWriteMessageType s;
     ticker := ticker s; conns := conns s; effects := effects s |}.
Definition set_multiple (v : bool) (s : Server) : Server :=
  {| event := event s; cross := cross s; id := id s; network := network s;
     addr := addr s; options := options s; ginServer := ginServer s;
     httpServer := httpServer s; grpcServer := grpcServer s;
     supportMessageTypes := supportMessageTypes s; certFile := certFile s;
     keyFile := keyFile s; isShutdown := isShutdown s;
     closeChannel := closeChannel s; gServer := gServer s;
     messagePool := messagePool s; messagePoolSize := messagePoolSize s;
     messageChannel := messageChannel s;
     initMessageChannel := initMessageChannel s; multiple := v;
     prod := prod s; core := core s;
     websocketWriteMessageType := websocketWriteMessageType s;
     ticker := ticker s; conns := conns s; effects := effects s |}.
Definition set_prod (v : bool) (s : Server) : Server :=
  {| event := event s; cross := cross s; id := id s; network := network s;
     addr := addr s; options := options s; ginServer := ginServer s;
     httpServer := httpServer s; grpcServer := grpcServer s;
     supportMessageTypes := supportMessageTypes s; certFile := certFile s;
     keyFile := keyFile s; isShutdown := isShutdown s;
     closeChannel := closeChannel s; gServer := gServer s;
     messagePool := messagePool s; messagePoolSize := messagePoolSize s;
     messageChannel := messageChannel s;
     initMessageChannel := initMessageChannel s; multiple := multiple s;
     prod := v; core := core s;
     websocketWriteMessageType := websocketWriteMessageType s;
     ticker := ticker s; conns := conns s; effects := effects s |}.
Definition set_core (v : Z) (s : Server) : Server :=
  {| event := event s; cross := cross s; id := id s; network := network s;
     addr := addr s; options := options s; ginServer := ginServer s;
     httpServer := httpServer s; grpcServer := grpcServer s;
     supportMessageTypes := supportMessageTypes s; certFile := certFile s;
     keyFile := keyFile s; isShutdown := isShutdown s;
     closeChannel := closeChannel s; gServer := gServer s;
     messagePool := messagePool s; messagePoolSize := messagePoolSize s;
     messageChannel := messageChannel s;
     initMessageChannel := initMessageChannel s; multiple := multiple s;
     prod := prod s; core := v;
     websocketWriteMessageType := websocketWriteMessageType s;
     ticker := ticker s; conns := conns s; effects := effects s |}.
Definition set_websocketWriteMessageType (v : Z) (s : Server) : Server :=
  {| event := event s; cross := cross s; id := id s; network := network s;
     addr := addr s; options := options s; ginServer := ginServer s;
     httpServer := httpServer s; grpcServer := grpcServer s;
     supportMessageTypes := supportMessageTypes s; certFile := certFile s;
     keyFile := keyFile s; isShutdown := isShutdown s;
     closeChannel := closeChannel s; gServer := gServer s;
     messagePool := messagePool s; messagePoolSize := messagePoolSize s;
     messageChannel := messageChannel s;
     initMessageChannel := initMessageChannel s; multiple := multiple s;
     prod := prod s; core := core s; websocketWriteMessageType := v;
     ticker := ticker s; conns := conns s; effects := effects s |}.
Definition set_ticker (v : option Ticker) (s : Server) : Server :=
  {| event := event s; cross := cross s; id := id s; network := network s;
     addr := addr s; options := options s; ginServer := ginServer s;
     httpServer := httpServer s; grpcServer := grpcServer s;
     supportMessageTypes := supportMessageTypes s; certFile := certFile s;
     keyFile := keyFile s; isShutdown := isShutdown s;
     closeChannel := closeChannel s; gServer := gServer s;
     messagePool := messagePool s; messagePoolSize := messagePoolSize s;
     messageChannel := messageChannel s;
     initMessageChannel := initMessageChannel s; multiple := multiple s;
     prod := prod s; core := core s;
     websocketWriteMessageType := websocketWriteMessageType s; ticker := v;
     conns := conns s; effects := effects s |}.
Definition set_conns (v : gmap ConnPtr Conn) (s : Server) : Server :=
  {| event := event s; cross := cross s; id := id s; network := network s;
     addr := addr s; options := options s; ginServer := ginServer s;
     httpServer := httpServer s; grpcServer := grpcServer s;
     supportMessageTypes := supportMessageTypes s; certFile := certFile s;
     keyFile := keyFile s; isShutdown := isShutdown s;
     closeChannel := closeChannel s; gServer := gServer s;
     messagePool := messagePool s; messagePoolSize := messagePoolSize s;
     messageChannel := messageChannel s;
     initMessageChannel := initMessageChannel s; multiple := multiple s;
     prod := prod s; core := core s;
     websocketWriteMessageType := websocketWriteMessageType s;
     ticker := ticker s; conns := v; effects := effects s |}.
Definition set_effects (v : list Effect) (s : Server) : Server :=
  {| event := event s; cross := cross s; id := id s; network := network s;
     addr := addr s; options := options s; ginServer := ginServer s;
     httpServer := httpServer s; grpcServer := grpcServer s;
     supportMessageTypes := supportMessageTypes s; certFile := certFile s;
     keyFile := keyFile s; isShutdown := isShutdown s;
     closeChannel := closeChannel s; gServer := gServer s;
     messagePool := messagePool s; messagePoolSize := messagePoolSize s;
     messageChannel := messageChannel s;
     initMessageChannel := initMessageChannel s; multiple := multiple s;
     prod := prod s; core := core s;
     websocketWriteMessageType := websocketWriteMessageType s;
     ticker := ticker s; conns := conns s; effects := v |}.

(** ** Computations over the server *)

(** How a piece of Go code ends: it returns, it panics with a value, or
    it parks for ever on a channel operation nobody completes. *)
Inductive Res (A : Type) : Type :=
| Ok (a : A)
| Panics (v : PanicValue)
| Blocks.
Arguments Ok {A} a.
Arguments Panics {A} v.
Arguments Blocks {A}.

Definition M (A : Type) : Type := Server -> Server * Res A.

Definition ret {A : Type} (a : A) : M A := fun s => (s, Ok a).

Definition bind {A B : Type} (m : M A) (k : A -> M B) : M B :=
  fun s =>
    match m s with
    | (s', Ok a) => k a s'
    | (s', Panics v) => (s', Panics v)
    | (s', Blocks) => (s', Blocks)
    end.

Declare Scope go_scope.
Delimit Scope go_scope with go.
Notation "x <- y ; z" := (bind y (fun x => z))
  (at level 20, y at level 100, z at level 200, only parsing) : go_scope.
Notation "x ;; z" := (bind x (fun _ => z))
  (at level 100, z at level 200, only parsing, right associativity) : go_scope.
Local Open Scope go_scope.

Definition panic {A : Type} (v : PanicValue) : M A := fun s => (s, Panics v).
Definition block {A : Type} : M A := fun s => (s, Blocks).
Definition gets {A : Type} (f : Server -> A) : M A := fun s => (s, Ok (f s)).
Definition modify (f : Server -> Server) : M unit := fun s => (f s, Ok tt).
Definition emit (e : Effect) : M unit :=
  modify (fun s => set_effects (effects s ++ [e]) s).

(** [defer func() { if err := recover(); err != nil { ... } }()] around
    [m]: a panic of [m] is handed to the deferred function, and the
    assignments [m] made before it stay made. *)
Definition recover (m : M unit) : M (option PanicValue) :=
  fun s =>
    match m s with
    | (s', Ok _) => (s', Ok None)
    | (s', Panics v) => (s', Ok (Some v))
    | (s', Blocks) => (s', Blocks)
    end.

(** [for _, x := range xs { f(x) }] *)
Fixpoint forEach {A : Type} (f : A -> M unit) (xs : list A) : M unit :=
  match xs with
  | [] => ret tt
  | x :: rest => f x ;; forEach f rest
  end.

(** What the program cannot decide: how the handlers registered on a
    hook end when fired, what the clock and the stack dump say, and what
    the transports answer when asked to stop. *)
Class Environment : Type := {
  handlers : HookCall -> option PanicValue;
  elapsed : Message -> Z; (* [time.Since(present)], in nanoseconds *)
  debugStack : string;    (* [string(debug.Stack())] *)
  gnetStopError : option error;
  httpShutdownError : option error
}.

Section Engine.
Context `{MessageConstants} `{Environment}.

(** Firing a hook runs the registered handlers on the caller's stack. *)
Definition fire (h : HookCall) : M unit :=
  emit (Fired h) ;;
  match handlers h with
  | None => ret tt
  | Some v => panic v
  end.

(** ** options.go *)

Definition applyOption (option0 : Option) : M unit :=
  match option0 with
  | WithTicker size autonomy =>
      modify (set_ticker (Some {| tickerSize := size; autonomous := autonomy |}))
  | WithCross crossName serverId cross0 =>
      modify (set_id serverId) ;;
      modify (fun srv => set_cross (<[crossName := cross0]> (cross srv)) srv) ;;
      match crossInit cross0 with
      | Some err => emit (LogCrossInitFailed serverId) ;; panic (PanicError err)
      | None => ret tt
      end
  | WithTLS certFile0 keyFile0 =>
      network0 <- gets network ;
      match network0 with
      | NetworkHttp | NetworkWebsocket =>
          modify (set_certFile certFile0) ;; modify (set_keyFile keyFile0)
      | _ => ret tt
      end
  | WithGRPCServerOptions serverOptions =>
      network0 <- gets network ;
      match network0 with
      | NetworkGRPC => modify (set_grpcServer (Some serverOptions))
      | _ => ret tt
      end
  | WithProd => modify (set_prod true)
  | WithWebsocketWriteMessageType messageType =>
      if isWebsocketMessageType messageType
      then modify (set_websocketWriteMessageType messageType)
      else emit (LogOptionWarning "WithWebsocketWriteMessageType" messageType
                   (Some ErrWebsocketMessageTypeException))
  | WithWebsocketMessageType messageTypes =>
      network0 <- gets network ;
      match network0 with
      | NetworkWebsocket =>
          forEach (fun messageType =>
                     if isWebsocketMessageType messageType then ret tt
                     else emit (LogOptionWarning "WitchWebsocketMessageType"
                                  messageType (Some ErrWebsocketMessageTypeException)))
                  messageTypes ;;
          modify (set_supportMessageTypes
                    (foldl (fun supports messageType =>
                              if isWebsocketMessageType messageType
                              then <[messageType := true]> supports
                              else supports)
                           ∅ messageTypes))
      | _ => emit (LogOptionWarning "WitchWebsocketMessageType" 0
                     (Some ErrNotWebsocketUseMessageType))
      end
  | WithMessageBufferSize size =>
      if size <=? 0 then ret tt else modify (set_messagePoolSize size)
  | WithMultiCore count =>
      modify (set_core count) ;;
      core0 <- gets core ;
      if core0 <? 1
      then emit (LogOptionWarning "WithMultiCore" count None) ;;
           modify (set_core 1)
      else ret tt
  end.

(** ** server.go: [New] *)

(** The struct literal of [New] and the two assignments that depend on
    the network kind; every other field has Go's zero value. *)
Definition newServer (network0 : Network) (options0 : list Option) : Server :=
  {| event := true;
     cross := ∅;
     id := 0;
     network := network0;
     addr := "";
     options := options0;
     ginServer := match network0 with NetworkHttp => true | _ => false end;
     httpServer := match network0 with NetworkHttp => true | _ => false end;
     grpcServer := match network0 with NetworkGRPC => Some [] | _ => None end;
     supportMessageTypes := ∅;
     certFile := "";
     keyFile := "";
     isShutdown := false;
     closeChannel := {| signalClosed := false; receiverParked := false |};
     gServer := false;
     messagePool := None;
     messagePoolSize := 0;
     messageChannel := ∅;
     initMessageChannel := false;
     multiple := false;
     prod := false;
     core := 1;
     websocketWriteMessageType := WebsocketMessageTypeBinary;
     ticker := None;
     conns := ∅;
     effects := [] |}.

(** [New] hands back the server its options have run over; a panicking
    option ([WithCross]) makes [New] panic. *)
Definition New (network0 : Network) (options0 : list Option) : Server * Res unit :=
  forEach applyOption options0 (newServer network0 options0).

(** ** server.go: [PushMessage] *)

(** [for _, v := range m { ...; break }] runs its body on the first entry
    the range visits.  Go leaves the iteration order of a map unspecified
    and the runtime starts every range where it pleases: [start] is that
    choice.  Ranging over an empty (or nil) map visits nothing. *)
Definition rangeFirst {V : Type} (start : nat) (m : gmap Z V) : option (Z * V) :=
  map_to_list m !! (start mod length (map_to_list m))%nat.

(** [channel <- msg] on a buffered channel. *)
Definition send (msg : Message) (channel : Chan) : Res Chan :=
  if closed channel then Panics sendOnClosedChannel
  else if capacity channel <=? Z.of_nat (length (queue channel)) then Blocks
  else Ok {| queue := queue channel ++ [msg]; capacity := capacity channel;
             closed := false |}.

(** The method call on a [*Pool] that may be nil. *)
Definition messagePool_Get : M Message :=
  pool <- gets messagePool ;
  match pool with
  | None => panic nilDereference
  | Some p =>
      modify (set_messagePool (Some (snd (Pool_Get p)))) ;;
      ret (fst (Pool_Get p))
  end.

Definition messagePool_Release (msg : Message) : M unit :=
  pool <- gets messagePool ;
  match pool with
  | None => panic nilDereference
  | Some p => modify (set_messagePool (Some (Pool_Release msg p)))
  end.

Definition messagePool_Close : M unit :=
  pool <- gets messagePool ;
  match pool with
  | None => panic nilDereference
  | Some p => modify (set_messagePool (Some (Pool_Close p)))
  end.

(** The envelope as [PushMessage] leaves it before the send: both fields
    of the pooled struct are overwritten, and an Error envelope gets the
    stack dump as one more attribute. *)
Definition stamp (msg : Message) (messageType : Z) (attrs0 : list Attr) : Message :=
  let msg1 := {| t := messageType; attrs := attrs msg |} in
  let msg2 := {| t := t msg1; attrs := attrs0 |} in
  if t msg2 =? MessageTypeError
  then {| t := t msg2; attrs := attrs msg2 ++ [AString debugStack] |}
  else msg2.

Definition PushMessage (start : nat) (messageType : Z) (attrs0 : list Attr) : M unit :=
  msg0 <- messagePool_Get ;
  let msg := stamp msg0 messageType attrs0 in
  channels <- gets messageChannel ;
  match rangeFirst start channels with
  | None => ret tt
  | Some (shard, channel) =>
      match send msg channel with
      | Ok channel' => modify (set_messageChannel (<[shard := channel']> channels))
      | Panics v => panic v
      | Blocks => block
      end
  end.

(** ** server.go: [Shutdown] *)

(** [close(messageChannel)] for the queue of one shard. *)
Definition closeShard (shard : Z) : M unit :=
  channels <- gets messageChannel ;
  match channels !! shard with
  | None => ret tt
  | Some channel =>
      if closed channel then panic closeOfClosedChannel
      else modify (set_messageChannel
                     (<[shard := {| queue := queue channel;
                                    capacity := capacity channel;
                                    closed := true |}]> channels))
  end.

(** [slf.closeChannel <- struct{}{}]: the send panics on a closed
    channel; it is taken by the [select] of [Run] when [Run] is parked
    there, and [Run] then runs [close(slf.closeChannel)] and returns;
    with no reader the sender parks for ever. *)
Definition signalClose : M unit :=
  channel <- gets closeChannel ;
  if signalClosed channel then panic sendOnClosedChannel
  else if receiverParked channel
  then modify (set_closeChannel {| signalClosed := true; receiverParked := false |})
  else block.

(** [Shutdown] up to and including its read of [initMessageChannel]
    (lines 335-342): the flag is stored, the ticker and every cross link
    are released, and the value read decides the [if] of line 342. *)
Definition Shutdown_enter : M bool :=
  modify (set_isShutdown true) ;;
  ticker0 <- gets ticker ;
  match ticker0 with
  | Some _ => emit TickerRelease
  | None => ret tt
  end ;;
  cross0 <- gets cross ;
  forEach (fun entry => emit (CrossRelease (fst entry))) (map_to_list cross0) ;;
  gets initMessageChannel.

(** The rest of [Shutdown] (lines 342-378), given what line 342 read. *)
Definition Shutdown_release (initialized : bool) (err : option error)
    (stack : list string) : M unit :=
  (if initialized then
     gServer0 <- gets gServer ;
     (if gServer0 then
        network0 <- gets network ;
        addr0 <- gets addr ;
        emit (GnetStop (network0, addr0)) ;;
        match gnetStopError with
        | Some shutdownErr => emit (LogStopFailed shutdownErr)
        | None => ret tt
        end
      else ret tt) ;;
     channels <- gets messageChannel ;
     forEach closeShard (map fst (map_to_list channels)) ;;
     messagePool_Close ;;
     modify (set_initMessageChannel false)
   else ret tt) ;;
  grpcServer0 <- gets grpcServer ;
  match grpcServer0 with
  | Some _ => emit GrpcGracefulStop
  | None => ret tt
  end ;;
  httpServer0 <- gets httpServer ;
  (if httpServer0 then
     emit HttpShutdown ;;
     match httpShutdownError with
     | Some shutdownErr => emit (LogStopFailed shutdownErr)
     | None => ret tt
     end
   else ret tt) ;;
  match err with
  | Some err0 =>
      emit (LogShutdownException (List.hd "" stack) err0) ;;
      signalClose
  | None => emit LogShutdownNormal
  end.

(** [func (slf *Server) Shutdown(err error, stack ...string)] *)
Definition Shutdown (err : option error) (stack : list string) : M unit :=
  initialized <- Shutdown_enter ;
  Shutdown_release initialized err stack.


(** ** server.go: [dispatchMessage] *)

(** Modelled from the spec: the four decoders of [message.go], which is
    not among the sources.  The spec (section 4.3) gives each kind its
    attribute contract (Packet: connection, raw bytes, and for WebSocket
    the frame sub-type; Error: error value, action directive, captured
    stack; Cross: remote server id, raw bytes; Ticker: a zero-argument
    callback) and says that the decode step fails on any other shape. *)
Definition deconstructPacket (attrs0 : list Attr) : M (ConnPtr * list Byte.byte) :=
  match attrs0 with
  | [AConn conn; ABytes packet] => ret (conn, packet)
  | _ => panic (PanicError ErrWrongMessageAttrs)
  end.

Definition deconstructWebSocketPacket (attrs0 : list Attr)
    : M (ConnPtr * list Byte.byte * Z) :=
  match attrs0 with
  | [AConn conn; ABytes packet; AInt messageType] => ret (conn, packet, messageType)
  | _ => panic (PanicError ErrWrongMessageAttrs)
  end.

Definition deconstructError (attrs0 : list Attr) : M (error * Z * string) :=
  match attrs0 with
  | [AError err; AAction action; AString stack] => ret (err, action, stack)
  | _ => panic (PanicError ErrWrongMessageAttrs)
  end.

Definition deconstructCross (attrs0 : list Attr) : M (Z * list Byte.byte) :=
  match attrs0 with
  | [AInt64 serverId; ABytes packet] => ret (serverId, packet)
  | _ => panic (PanicError ErrWrongMessageAttrs)
  end.

Definition deconstructTicker (attrs0 : list Attr) : M N :=
  match attrs0 with
  | [AFunc caller] => ret caller
  | _ => panic (PanicError ErrWrongMessageAttrs)
  end.

(** The [switch msg.t] of lines 442-469: what runs inside the boundary. *)
Definition handle (msg : Message) : M unit :=
  if t msg =? MessageTypePacket then
    network0 <- gets network ;
    match network0 with
    | NetworkWebsocket =>
        r <- deconstructWebSocketPacket (attrs msg) ;
        let '(conn, packet, messageType) := r in
        fire (ConnectionReceiveWebsocketPacket conn packet messageType)
    | _ =>
        r <- deconstructPacket (attrs msg) ;
        let '(conn, packet) := r in
        fire (ConnectionReceivePacket conn packet)
    end
  else if t msg =? MessageTypeError then
    r <- deconstructError (attrs msg) ;
    let '(err, action, stack) := r in
    if action =? MessageErrorActionNone then emit (LogErrorWithStack stack err)
    else if action =? MessageErrorActionShutdown then Shutdown (Some err) [stack]
    else emit (LogActionNotSupported action)
  else if t msg =? MessageTypeCross then
    r <- deconstructCross (attrs msg) ;
    let '(serverId, packet) := r in
    fire (ReceiveCrossPacket serverId packet)
  else if t msg =? MessageTypeTicker then
    caller <- deconstructTicker (attrs msg) ;
    fire (TickerCaller caller)
  else emit (LogTypeNotSupported (t msg)).

(** [time.Millisecond*100], in nanoseconds. *)
Definition lowExecThreshold : Z := 100 * 1000000.

(** The deferred function of lines 425-441, run with what [recover()]
    returns.  Its own calls are not guarded by any [recover]. *)
Definition boundary (msg : Message) (recovered : option PanicValue) : M unit :=
  match recovered with
  | Some err =>
      emit (LogHandlerFault (t msg) (attrs msg) err) ;;
      match err with
      | PanicError e => fire (MessageError msg e)
      | PanicOther _ => ret tt
      end
  | None => ret tt
  end ;;
  (if lowExecThreshold <? elapsed msg
   then emit (LogLowExecCost (t msg) (elapsed msg) (attrs msg)) ;;
        fire (MessageLowExec msg (elapsed msg))
   else ret tt) ;;
  isShutdown0 <- gets isShutdown ;
  if negb isShutdown0 then messagePool_Release msg else ret tt.

Definition dispatchMessage (msg : Message) : M unit :=
  recovered <- recover (handle msg) ;
  boundary msg recovered.

(** One turn of [for message := range messageChannel]: the next envelope
    of the shard, [None] once the queue is closed and drained; on an
    empty open queue the loop parks. *)
Definition receive (shard : Z) : M (option Message) :=
  channels <- gets messageChannel ;
  match channels !! shard with
  | None => block
  | Some channel =>
      match queue channel with
      | msg :: rest =>
          modify (set_messageChannel
                    (<[shard := {| queue := rest; capacity := capacity channel;
                                   closed := closed channel |}]> channels)) ;;
          ret (Some msg)
      | [] => if closed channel then ret None else block
      end
  end.

(** The dispatch goroutine of one shard (lines 125-129), for at most
    [turns] envelopes. *)
Fixpoint dispatchLoop (turns : nat) (shard : Z) : M unit :=
  match turns with
  | O => ret tt
  | S turns' =>
      next <- receive shard ;
      match next with
      | None => ret tt
      | Some message => dispatchMessage message ;; dispatchLoop turns' shard
      end
  end.

(** ** server.go: [Run] *)

(** The closure [connectionInitHandle] of lines 99-131; every call site
    passes a callback. *)
Definition connectionInitHandle (callback : Task) : M unit :=
  modify (set_initMessageChannel true) ;;
  size <- gets messagePoolSize ;
  (if size <=? 0 then modify (set_messagePoolSize 100) else ret tt) ;;
  size' <- gets messagePoolSize ;
  modify (set_messagePool (Some (NewPool size' messageGenerator messageReleaser))) ;;
  core0 <- gets core ;
  modify (set_messageChannel
            (foldl (fun channels i => <[i := makeChan (4096 * 1000)]> channels)
                   ∅ (seqZ 0 core0))) ;;
  network0 <- gets network ;
  match network0 with
  | NetworkHttp | NetworkWebsocket => ret tt
  | _ => modify (set_gServer true)
  end ;;
  emit (Go callback) ;;
  channels <- gets messageChannel ;
  forEach (fun entry => emit (Go (DispatchLoop (fst entry)))) (map_to_list channels).

(** How a call of [Run] stands once its listener is started: it has
    returned an error, it has returned nil ([multiple]), or it is parked
    in the [select] of lines 293-299. *)
Inductive RunStatus : Type :=
| RunError (err : error)
| RunReturned
| RunParked.

(** [Run] down to its [select].  [listen] is what binding the address
    answers ([net.Listen], [kcp.ListenWithOptions]).  The hook check of
    line 96 belongs to [event.go], which is not among the sources, and is
    left out. *)
Definition Run (addr0 : string) (listen : option error) : M RunStatus :=
  event0 <- gets event ;
  if negb event0 then ret (RunError ErrConstructed)
  else
    modify (set_addr addr0) ;;
    network0 <- gets network ;
    failed <-
      match network0 with
      | NetworkGRPC =>
          match listen with
          | Some err => ret (Some err)
          | None => emit (Go GrpcServe) ;; ret None
          end
      | NetworkTcp | NetworkTcp4 | NetworkTcp6
      | NetworkUdp | NetworkUdp4 | NetworkUdp6 | NetworkUnix =>
          emit (Go (ConnectionInit GnetServe)) ;; ret None
      | NetworkKcp =>
          match listen with
          | Some err => ret (Some err)
          | None => emit (Go (ConnectionInit KcpAccept)) ;; ret None
          end
      | NetworkHttp =>
          prod0 <- gets prod ;
          (if prod0 then emit SetProd else ret tt) ;;
          emit (Go HttpServe) ;; ret None
      | NetworkWebsocket =>
          emit (Go (ConnectionInit WebsocketListen)) ;; ret None
      | NetworkOther _ => ret (Some ErrCanNotSupportNetwork)
      end ;
    match failed with
    | Some err => ret (RunError err)
    | None =>
        multiple0 <- gets multiple ;
        if negb multiple0 then
          addr1 <- gets addr ;
          emit (LogRunningInfo network0 addr1) ;;
          fire StartFinish ;;
          modify (fun slf =>
                    set_closeChannel
                      {| signalClosed := signalClosed (closeChannel slf);
                         receiverParked := true |} slf) ;;
          ret RunParked
        else fire StartFinish ;; ret RunReturned
    end.

(** The first arm of the [select]: a termination signal arrives while
    [Run] is parked. *)
Definition Run_signalled : M unit :=
  modify (fun slf =>
            set_closeChannel
              {| signalClosed := signalClosed (closeChannel slf);
                 receiverParked := false |} slf) ;;
  Shutdown None [].

(** What every serving goroutine does when its serve call comes back with
    an error (lines 141-143, 148-150, 195-201, 268-274); [serve] is
    [None] while the listener keeps serving. *)
Definition serveFailed (start : nat) (serve : option error) : M unit :=
  match serve with
  | Some err =>
      PushMessage start MessageTypeError
        [AError err; AAction MessageErrorActionShutdown]
  | None => ret tt
  end.

Definition grpcServe (start : nat) (serve : option error) : M unit :=
  fire StartBefore ;; serveFailed start serve.

Definition gnetServe (start : nat) (serve : option error) : M unit :=
  fire StartBefore ;; serveFailed start serve.

Definition httpServe (start : nat) (serve : option error) : M unit :=
  fire StartBefore ;;
  certFile0 <- gets certFile ;
  keyFile0 <- gets keyFile ;
  if (0 <? String.length certFile0 + String.length keyFile0)%nat
  then serveFailed start serve
  else serveFailed start serve.

Definition websocketServe (start : nat) (serve : option error) : M unit :=
  fire StartBefore ;;
  certFile0 <- gets certFile ;
  keyFile0 <- gets keyFile ;
  if (0 <? String.length certFile0 + String.length keyFile0)%nat
  then serveFailed start serve
  else serveFailed start serve.

(** The callback of the WebSocket kind up to its inner [go]: the path
    after the first slash of the address becomes the pattern. *)
Definition websocketListen : M unit :=
  addr0 <- gets addr ;
  match String.index 0 "/" addr0 with
  | None => emit (HandleFunc "/")
  | Some index =>
      modify (set_addr (String.substring 0 index addr0)) ;;
      emit (HandleFunc (String.substring index (String.length addr0 - index) addr0))
  end ;;
  emit (Go WebsocketServe).

(** ** The read loop of a WebSocket connection (lines 235-263) *)

(** Fires the handlers of the connection-opened hook. *)
Definition OnConnectionOpenedEvent (conn : ConnPtr) : M unit :=
  fire (ConnectionOpened conn).

(** [conn.Close()] on the connection at [conn]. *)
Definition closeConn (conn : ConnPtr) : M unit :=
  conns0 <- gets conns ;
  match conns0 !! conn with
  | None => panic nilDereference
  | Some c =>
      forEach (fun call => emit (Transport call)) (snd (Conn_Close c)) ;;
      modify (set_conns (<[conn := fst (Conn_Close c)]> conns0))
  end.

(** Modelled from the spec: [OnConnectionClosedEvent] belongs to
    [event.go], which is not among the sources.  The spec has a fault on
    a connection fire the connection-closed hook (section 4.5) and
    destroy the connection, write function cleared and underlying handle
    closed (section 3); the read loop of server.go does nothing but call
    this function, so both happen here. *)
Definition OnConnectionClosedEvent (conn : ConnPtr) : M unit :=
  fire (ConnectionClosed conn) ;;
  closeConn conn.

(** What one turn of the loop reads. *)
Inductive Read : Type :=
| SetReadDeadlineFails (err : error)
| ReadMessageFails (readErr : error)
| ReadMessage (messageType : Z) (packet : list Byte.byte).

(** The body of the [for] of lines 251-263.  A key missing from a Go map
    reads as [false]; [len] of a nil map is 0. *)
Definition websocketTurn (conn : ConnPtr) (start : nat) (read : Read) : M unit :=
  match read with
  | SetReadDeadlineFails err => panic (PanicError err)
  | ReadMessageFails readErr => panic (PanicError readErr)
  | ReadMessage messageType packet =>
      supportMessageTypes0 <- gets supportMessageTypes ;
      if (0 <? size supportMessageTypes0)%nat
         && negb (default false (supportMessageTypes0 !! messageType))
      then panic (PanicError ErrWebsocketIllegalMessageType)
      else PushMessage start MessageTypePacket
             [AConn conn; ABytes packet; AInt messageType]
  end.

(** The loop over what the peer sends; when the input runs out the loop
    is parked in [ReadMessage]. *)
Fixpoint websocketReadLoop (conn : ConnPtr) (reads : list (nat * Read)) : M unit :=
  match reads with
  | [] => block
  | (start, read) :: rest =>
      websocketTurn conn start read ;; websocketReadLoop conn rest
  end.

(** The read loop under the deferred function of lines 245-249: a panic
    of the loop is recovered and answered with the connection-closed
    event; nothing else ends the loop. *)
Definition websocketRead (conn : ConnPtr) (reads : list (nat * Read)) : M unit :=
  recovered <- recover (websocketReadLoop conn reads) ;
  match recovered with
  | Some _ => OnConnectionClosedEvent conn
  | None => ret tt
  end.

(** The handler of one upgraded request, from [newWebsocketConn] on:
    the connection is allocated at [conn], the query values are stored
    on it, the opened hook fires, and the guarded read loop runs.  The
    server that server.go passes to [newWebsocketConn] is not a
    parameter of the function in conn.go. *)
Definition websocketHandle (conn : ConnPtr) (ws0 : Handle) (ip0 : string)
    (query : list (string * list string)) (reads : list (nat * Read)) : M unit :=
  modify (fun slf =>
            set_conns (<[conn := foldl (fun c entry => SetData (fst entry) (snd entry) c)
                                       (newWebsocketConn ws0 ip0) query]>
                         (conns slf)) slf) ;;
  OnConnectionOpenedEvent conn ;;
  websocketRead conn reads.

(** ** The reliable-UDP listener (lines 157-185) *)

(** What [AcceptKCP] answers: an error, which the loop skips, or a
    session, which gets a connection at [conn]. *)
Inductive Accept : Type :=
| AcceptFails (err : error)
| Accepted (conn : ConnPtr) (session : Handle) (remoteAddr : string).

Fixpoint kcpAcceptLoop (accepts : list Accept) : M unit :=
  match accepts with
  | [] => block
  | AcceptFails _ :: rest => kcpAcceptLoop rest
  | Accepted conn session remoteAddr :: rest =>
      modify (fun slf =>
                set_conns (<[conn := newKcpConn session remoteAddr]> (conns slf)) slf) ;;
      OnConnectionOpenedEvent conn ;;
      emit (Go (ConnectionRead conn)) ;;
      kcpAcceptLoop rest
  end.

Definition kcpAccept (accepts : list Accept) : M unit :=
  fire StartBefore ;; kcpAcceptLoop accepts.

(** The read goroutine of one session: [reads] are the results of
    [conn.kcp.Read], an error or the bytes read. *)
Fixpoint kcpReadLoop (conn : ConnPtr) (reads : list (nat * (error + list Byte.byte)))
    : M unit :=
  match reads with
  | [] => block
  | (_, inl err) :: _ => panic (PanicError err)
  | (start, inr packet) :: rest =>
      PushMessage start MessageTypePacket [AConn conn; ABytes packet] ;;
      kcpReadLoop conn rest
  end.

Definition kcpRead (conn : ConnPtr) (reads : list (nat * (error + list Byte.byte)))
    : M unit :=
  recovered <- recover (kcpReadLoop conn reads) ;
  match recovered with
  | Some _ => OnConnectionClosedEvent conn
  | None => ret tt
  end.

End Engine.

(** ** Instances to run the model on *)

(** The kinds and the directives numbered from zero in the order the
    spec lists them, as a Go [iota] block would. *)
Definition iotaConstants : MessageConstants :=
  {| MessageTypePacket := 0; MessageTypeError := 1; MessageTypeCross := 2;
     MessageTypeTicker := 3;
     MessageErrorActionNone := 0; MessageErrorActionShutdown := 1 |}.

(** Every handler returns at once and every stop succeeds. *)
Definition quietEnvironment : Environment :=
  {| handlers := fun _ => None;
     elapsed := fun _ => 0;
     debugStack := "goroutine 1 [running]";
     gnetStopError := None;
     httpShutdownError := None |}.

(** The packet handlers panic with an error, and so do the handlers of
    the message-error hook that the boundary then fires. *)
Definition faultyEnvironment : Environment :=
  {| handlers := fun h =>
       match h with
       | ConnectionReceivePacket _ _ => Some (PanicError (ErrExternal "handler"))
       | MessageError _ _ => Some (PanicError (ErrExternal "error handler"))
       | _ => None
       end;
     elapsed := fun _ => 0;
     debugStack := "goroutine 1 [running]";
     gnetStopError := None;
     httpShutdownError := None |}.

(** The state of a computation that returned, for chaining runs. *)
Definition after {A : Type} (r : Server * Res A) : Server := fst r.

(** The packet handlers panic with an error; every other handler
    returns. *)
Definition packetFaultEnvironment : Environment :=
  {| handlers := fun h =>
       match h with
       | ConnectionReceivePacket _ _ => Some (PanicError (ErrExternal "handler"))
       | _ => None
       end;
     elapsed := fun _ => 0;
     debugStack := "goroutine 1 [running]";
     gnetStopError := None;
     httpShutdownError := None |}.

Section Demo.
#[local] Existing Instance iotaConstants.
#[local] Existing Instance quietEnvironment.

(** A raw-socket server with [cores] shards: built, run (parked in its
    [select]) and provisioned. *)
Definition tcpServer (cores : Z) : Server :=
  after (connectionInitHandle GnetServe
           (after (Run ":8888" None
                     (after (New NetworkTcp [WithMultiCore cores]))))).

(** A WebSocket server that allows binary and ping frames, with one
    connection open at address 1. *)
Definition websocketServer : Server :=
  after (websocketHandle 1%N 7%N "10.0.0.1" [] []
           (after (connectionInitHandle WebsocketListen
                     (after (Run ":8888/ws" None
                               (after (New NetworkWebsocket
                                         [WithWebsocketMessageType
                                            [WebsocketMessageTypeBinary;
                                             WebsocketMessageTypePing]]))))))).

(** A packet envelope as a read loop pushes it. *)
Definition packetOf (conn : ConnPtr) (payload : list Byte.byte) : list Attr :=
  [AConn conn; ABytes payload].

(** [tcpServer 1] with two packets queued on its only shard. *)
Definition twoQueued : Server :=
  after (PushMessage 0 MessageTypePacket (packetOf 1%N [Byte.x02])
           (after (PushMessage 0 MessageTypePacket (packetOf 1%N [Byte.x01])
                     (tcpServer 1)))).

End Demo.

(** * Vocabulary of the statements *)

Local Open Scope list_scope.

(** [R] relates the state before every run of [m] to the state after
    it, however the run ends. *)
Definition respects (R : relation Server) {A : Type} (m : M A) : Prop :=
  forall s s' r, m s = (s', r) -> R s s'.

(** The blank envelope: what the generator of server.go allocates and
    what its releaser leaves behind. *)
Definition zeroMessage : Message := {| t := 0; attrs := [] |}.

(** A pool built by [connectionInitHandle] whose free envelopes are all
    blank. *)
Definition cleanPool (p : Pool) : Prop :=
  generator p = messageGenerator
  /\ releaser p = messageReleaser
  /\ Forall (eq zeroMessage) (free p).

(** The shards of a server whose pipeline is provisioned: one queue for
    every index below the core count, and no other. *)
Definition shardsProvisioned (s : Server) : Prop :=
  forall shard, is_Some (messageChannel s !! shard) <-> 0 <= shard < core s.

(** A queue that takes one more envelope without parking the sender. *)
Definition hasRoom (channel : Chan) : Prop :=
  closed channel = false
  /\ Z.of_nat (length (queue channel)) < capacity channel.

(** [close(channel)] on an open queue. *)
Definition closedChan (channel : Chan) : Chan :=
  {| queue := queue channel; capacity := capacity channel; closed := true |}.

(** The line the boundary writes for a recovered fault. *)
Definition isHandlerFaultLog (e : Effect) : bool :=
  match e with
  | LogHandlerFault _ _ _ => true
  | _ => false
  end.

(** What the options of options.go and [Run] leave alone: the pipeline,
    the shutdown flag and the network kind; and the core count stays at
    least 1 once it is. *)
Definition pipelineKept (s s' : Server) : Prop :=
  messagePool s' = messagePool s
  /\ messageChannel s' = messageChannel s
  /\ initMessageChannel s' = initMessageChannel s
  /\ isShutdown s' = isShutdown s
  /\ gServer s' = gServer s
  /\ network s' = network s
  /\ event s' = event s
  /\ multiple s' = multiple s
  /\ conns s' = conns s
  /\ (1 <= core s -> 1 <= core s').

(** The goroutines that provision the pipeline. *)
Definition isPipelineInit (e : Effect) : bool :=
  match e with
  | Go (ConnectionInit _) => true
  | _ => false
  end.




(** A step keeps the pool: a pool stays a pool, and a clean pool stays
    clean. *)
Definition poolKept (s s' : Server) : Prop :=
  (is_Some (messagePool s) -> is_Some (messagePool s'))
  /\ ((forall p, messagePool s = Some p -> cleanPool p) ->
      forall p', messagePool s' = Some p' -> cleanPool p').

(** A step only appends effects, none of them the line the boundary
    writes for a recovered fault. *)
Definition appendsNoFaultLog (s s' : Server) : Prop :=
  exists es,
    effects s' = effects s ++ es
    /\ Forall (fun e => isHandlerFaultLog e = false) es.

(** What the boundary adds to the effects when it has recovered [v]
    from the handling of [msg] and its own hooks return. *)
Definition boundaryEffects `{Environment} (msg : Message) (v : PanicValue)
    : list Effect :=
  [LogHandlerFault (t msg) (attrs msg) v]
  ++ match v with
     | PanicError e => [Fired (MessageError msg e)]
     | PanicOther _ => []
     end
  ++ (if lowExecThreshold <? elapsed msg
      then [LogLowExecCost (t msg) (elapsed msg) (attrs msg);
            Fired (MessageLowExec msg (elapsed msg))]
      else []).

(** The kinds served by the raw-socket library (server.go, line 145). *)
Definition usesGnet (network0 : Network) : bool :=
  match network0 with
  | NetworkTcp | NetworkTcp4 | NetworkTcp6
  | NetworkUdp | NetworkUdp4 | NetworkUdp6 | NetworkUnix => true
  | _ => false
  end.

(** The envelope a failed serve call is routed through. *)
Definition serveFailure `{MessageConstants} `{Environment} (err : error) : Message :=
  {| t := MessageTypeError;
     attrs := [AError err; AAction MessageErrorActionShutdown; AString debugStack] |}.

(** A step keeps the shards: the core count and the set of shard
    queues. *)
Definition shardsKept (s s' : Server) : Prop :=
  core s' = core s
  /\ forall shard,
       is_Some (messageChannel s' !! shard) <-> is_Some (messageChannel s !! shard).

(** The pipeline as [connectionInitHandle] leaves it and as pushes,
    dispatches and [Shutdown] keep it: a clean pool and one queue for
    every shard. *)
Definition provisioned (s : Server) : Prop :=
  (exists p, messagePool s = Some p /\ cleanPool p)
  /\ 1 <= core s
  /\ shardsProvisioned s.
(** * Proofs *)

(** ** Running computations *)

Lemma bind_Ok {A B : Type} (m : M A) (k : A -> M B) (s s' : Server) (a : A) :
  m s = (s', Ok a) -> bind m k s = k a s'.
Proof. intros Hm. unfold bind. now rewrite Hm. Qed.

Lemma bind_Panics {A B : Type} (m : M A) (k : A -> M B) (s s' : Server) v :
  m s = (s', Panics v) -> bind m k s = (s', Panics v).
Proof. intros Hm. unfold bind. now rewrite Hm. Qed.

Lemma bind_Blocks {A B : Type} (m : M A) (k : A -> M B) (s s' : Server) :
  m s = (s', Blocks) -> bind m k s = (s', Blocks).
Proof. intros Hm. unfold bind. now rewrite Hm. Qed.

(** A bound computation ended: either its first half did not return, or
    the second half ran from where the first returned. *)
Lemma bind_inv {A B : Type} (m : M A) (k : A -> M B) (s s2 : Server) (r : Res B) :
  bind m k s = (s2, r) ->
  (exists s1 a, m s = (s1, Ok a) /\ k a s1 = (s2, r))
  \/ (exists v, m s = (s2, Panics v) /\ r = Panics v)
  \/ (m s = (s2, Blocks) /\ r = Blocks).
Proof.
  unfold bind. destruct (m s) as [s1 [a | v |]]; intros Hk.
  - left. eauto.
  - right. left. inversion Hk; subst. eauto.
  - right. right. inversion Hk; subst. eauto.
Qed.

(** Symbolic execution: the first action of a sequence, run on the state. *)

Lemma run_ret {A B : Type} (a : A) (k : A -> M B) (s : Server) :
  bind (ret a) k s = k a s.
Proof. reflexivity. Qed.

Lemma run_gets {A B : Type} (f : Server -> A) (k : A -> M B) (s : Server) :
  bind (gets f) k s = k (f s) s.
Proof. reflexivity. Qed.

Lemma run_modify {B : Type} (f : Server -> Server) (k : unit -> M B) (s : Server) :
  bind (modify f) k s = k tt (f s).
Proof. reflexivity. Qed.

Lemma run_emit {B : Type} (e : Effect) (k : unit -> M B) (s : Server) :
  bind (emit e) k s = k tt (set_effects (effects s ++ [e]) s).
Proof. reflexivity. Qed.

Lemma run_panic {A B : Type} v (k : A -> M B) (s : Server) :
  bind (panic v) k s = (s, Panics v).
Proof. reflexivity. Qed.

Lemma run_block {A B : Type} (k : A -> M B) (s : Server) :
  bind block k s = (s, Blocks).
Proof. reflexivity. Qed.

Lemma run_bind {A B C : Type} (m : M A) (k : A -> M B) (k' : B -> M C) (s : Server) :
  bind (bind m k) k' s = bind m (fun a => bind (k a) k') s.
Proof. unfold bind. now destruct (m s) as [s' [a | v |]]. Qed.

Lemma bind_ext {A B : Type} (m : M A) (k k' : A -> M B) (s : Server) :
  (forall a s', k a s' = k' a s') -> bind m k s = bind m k' s.
Proof. intros Hk. unfold bind. destruct (m s) as [s' [a | v |]]; auto. Qed.

Lemma end_modify (f : Server -> Server) (s : Server) : modify f s = (f s, Ok tt).
Proof. reflexivity. Qed.

Lemma end_emit (e : Effect) (s : Server) :
  emit e s = (set_effects (effects s ++ [e]) s, Ok tt).
Proof. reflexivity. Qed.

Lemma end_ret {A : Type} (a : A) (s : Server) : ret a s = (s, Ok a).
Proof. reflexivity. Qed.

Lemma end_gets {A : Type} (f : Server -> A) (s : Server) : gets f s = (s, Ok (f s)).
Proof. reflexivity. Qed.

Lemma end_panic {A : Type} v (s : Server) : @panic A v s = (s, Panics v).
Proof. reflexivity. Qed.

Lemma end_block {A : Type} (s : Server) : @block A s = (s, Blocks).
Proof. reflexivity. Qed.

Lemma forEach_emit {A : Type} (f : A -> Effect) (xs : list A) (s : Server) :
  forEach (fun x => emit (f x)) xs s
  = (set_effects (effects s ++ map f xs) s, Ok tt).
Proof.
  revert s. induction xs as [| x xs IH]; intros s; simpl.
  - unfold ret. f_equal. destruct s; unfold set_effects; simpl.
    now rewrite app_nil_r.
  - rewrite run_emit, IH.
    unfold set_effects; simpl. now rewrite <- app_assoc.
Qed.

Lemma run_forEach_emit {A B : Type} (f : A -> Effect) (xs : list A)
    (k : unit -> M B) (s : Server) :
  bind (forEach (fun x => emit (f x)) xs) k s
  = k tt (set_effects (effects s ++ map f xs) s).
Proof. unfold bind at 1. now rewrite forEach_emit. Qed.

(** Reads of a field through the assignments made before it. *)
Ltac fields :=
  cbn [negb andb orb fst snd event cross id network addr options ginServer httpServer grpcServer
       supportMessageTypes certFile keyFile isShutdown closeChannel gServer
       messagePool messagePoolSize messageChannel initMessageChannel
       multiple prod core websocketWriteMessageType ticker conns effects
       set_cross set_id set_addr set_grpcServer set_supportMessageTypes
       set_certFile set_keyFile set_isShutdown set_closeChannel set_gServer
       set_messagePool set_messagePoolSize set_messageChannel
       set_initMessageChannel set_multiple set_prod set_core
       set_websocketWriteMessageType set_ticker set_conns set_effects] in *.

(** Runs a computation as far as the state decides it. *)
Ltac run :=
  repeat (progress
            (rewrite ?run_bind, ?run_ret, ?run_gets, ?run_modify, ?run_emit,
               ?run_panic, ?run_block, ?run_forEach_emit,
               ?end_modify, ?end_emit, ?end_ret, ?end_gets, ?end_panic,
               ?end_block, ?forEach_emit;
             fields)).

(** Runs a computation through its branches, one case for every value
    a [match] or an [if] on the way looks at. *)
Ltac run_cases :=
  repeat (run;
          try match goal with
            | |- context [match ?x with _ => _ end] => destruct x eqn:?
            end).

(** ** Relations every step of a computation keeps *)

Section Respects.
Context (R : relation Server) (HR : PreOrder R).

Lemma respects_ret {A : Type} (a : A) : respects R (ret a).
Proof. intros s s' r [= <- _]. reflexivity. Qed.

Lemma respects_panic {A : Type} v : respects R (@panic A v).
Proof. intros s s' r [= <- _]. reflexivity. Qed.

Lemma respects_block {A : Type} : respects R (@block A).
Proof. intros s s' r [= <- _]. reflexivity. Qed.

Lemma respects_gets {A : Type} (f : Server -> A) : respects R (gets f).
Proof. intros s s' r [= <- _]. reflexivity. Qed.

Lemma respects_modify (f : Server -> Server) :
  (forall s, R s (f s)) -> respects R (modify f).
Proof. intros Hf s s' r [= <- _]. apply Hf. Qed.

Lemma respects_bind {A B : Type} (m : M A) (k : A -> M B) :
  respects R m -> (forall a, respects R (k a)) -> respects R (bind m k).
Proof.
  intros Hm Hk s s2 r Hrun.
  destruct (bind_inv _ _ _ _ _ Hrun) as [(s1 & a & H1 & H2) | [(v & H1 & _) | (H1 & _)]].
  - transitivity s1; [exact (Hm _ _ _ H1) | exact (Hk _ _ _ _ H2)].
  - exact (Hm _ _ _ H1).
  - exact (Hm _ _ _ H1).
Qed.

Lemma respects_recover (m : M unit) : respects R m -> respects R (recover m).
Proof.
  intros Hm s s' r. unfold recover.
  destruct (m s) as [s1 [a | v |]] eqn:Hrun; intros [= <- _];
    exact (Hm _ _ _ Hrun).
Qed.

Lemma respects_forEach {A : Type} (f : A -> M unit) (xs : list A) :
  (forall x, respects R (f x)) -> respects R (forEach f xs).
Proof.
  intros Hf. induction xs as [| x xs IH]; simpl.
  - apply respects_ret.
  - apply respects_bind; [apply Hf | intros _; exact IH].
Qed.
End Respects.

(** Walks a computation and leaves one goal for every assignment: that
    the assignment is a step of [R], which [base] is to close; [known]
    closes the parts a lemma already covers. *)
(** A step that changes nothing is a step of any preorder. *)
Ltac stays HR := apply (@PreOrder_Reflexive _ _ HR).

(** For a walk with no lemma to lean on. *)
Ltac nothing_known := fail.

Ltac respects_with R HR known base :=
  repeat match goal with
    | |- respects _ _ => solve [known]
    | |- respects _ (bind _ _) => apply (respects_bind R HR); [| intros ?]
    | |- respects _ (ret _) => apply (respects_ret R HR)
    | |- respects _ (panic _) => apply (respects_panic R HR)
    | |- respects _ block => apply (respects_block R HR)
    | |- respects _ (gets _) => apply (respects_gets R HR)
    | |- respects _ (emit _) => unfold emit
    | |- respects _ (modify _) => apply (respects_modify R); intros ?; base
    | |- respects _ (forEach _ _) => apply (respects_forEach R HR); intros ?
    | |- respects _ (recover _) => apply (respects_recover R)
    | |- respects _ (match ?x with _ => _ end) => destruct x
    end.

(** ** Connections *)

Lemma Conn_Close_clears_write (c : Conn) : write (fst (Conn_Close c)) = None.
Proof. reflexivity. Qed.

Lemma Conn_Close_keeps_handles (c : Conn) :
  ws (fst (Conn_Close c)) = ws c
  /\ gn (fst (Conn_Close c)) = gn c
  /\ kcp (fst (Conn_Close c)) = kcp c.
Proof. now repeat split. Qed.

(** C9.  [Close] makes one close call on the transport handle the
    connection holds (WebSocket first, then the raw socket, then the
    reliable-UDP session) and sets the write function to nil; after it,
    every [Write] on the connection panics on the nil function value
    before any call reaches the transport, and a second [Close] leaves
    the connection as the first left it. *)
Theorem Write_after_Close_fails_fast (c : Conn) (payload : list Byte.byte) :
  let after_close := fst (Conn_Close c) in
  snd (Conn_Close c)
    = match ws c, gn c, kcp c with
      | Some h, _, _ => [WsClose h]
      | None, Some h, _ => [GnClose h]
      | None, None, Some h => [KcpClose h]
      | None, None, None => []
      end
  /\ write after_close = None
  /\ Conn_Write after_close payload = ConnPanics nilDereference []
  /\ fst (Conn_Close after_close) = after_close
  /\ (forall h ip0,
        snd (Conn_Close (newWebsocketConn h ip0)) = [WsClose h]
        /\ snd (Conn_Close (newGNetConn h ip0)) = [GnClose h]
        /\ snd (Conn_Close (newKcpConn h ip0)) = [KcpClose h]).
Proof.
  intros after_close. subst after_close.
  split; [reflexivity |].
  split; [apply Conn_Close_clears_write |].
  split.
  - unfold Conn_Write. now rewrite Conn_Close_clears_write.
  - split; [reflexivity | intros h ip0; now repeat split].
Qed.

(** ** Ranging over the shard map *)

Lemma rangeFirst_lookup {V : Type} (start : nat) (m : gmap Z V) k v :
  rangeFirst start m = Some (k, v) -> m !! k = Some v.
Proof.
  unfold rangeFirst. intros Hlook.
  apply elem_of_map_to_list. eapply list_elem_of_lookup_2. exact Hlook.
Qed.

Lemma rangeFirst_is_Some {V : Type} (start : nat) (m : gmap Z V) k v :
  m !! k = Some v -> is_Some (rangeFirst start m).
Proof.
  intros Hk. unfold rangeFirst. apply lookup_lt_is_Some_2.
  apply Nat.mod_upper_bound.
  apply elem_of_map_to_list in Hk.
  destruct (map_to_list m); [inversion Hk | discriminate].
Qed.

(** Whatever entry the map holds, some choice of the runtime visits it
    first. *)
Lemma rangeFirst_reaches {V : Type} (m : gmap Z V) k v :
  m !! k = Some v -> exists start, rangeFirst start m = Some (k, v).
Proof.
  intros Hk. apply elem_of_map_to_list in Hk.
  apply list_elem_of_lookup_1 in Hk as [i Hi].
  exists i. unfold rangeFirst.
  rewrite Nat.mod_small; [exact Hi |].
  eapply lookup_lt_Some. exact Hi.
Qed.

(** ** Loops that only write effects, and the shard map of [Run] *)


Lemma lookup_foldl_insert {V : Type} (v : V) (keys : list Z) (m : gmap Z V) k :
  foldl (fun channels i => <[i := v]> channels) m keys !! k
  = if decide (k ∈ keys) then Some v else m !! k.
Proof.
  revert m. induction keys as [| i keys IH]; intros m; simpl.
  - reflexivity.
  - rewrite IH. destruct (decide (k ∈ keys)) as [Hin | Hnot].
    + rewrite decide_True; [reflexivity | now right].
    + destruct (decide (k = i)) as [-> | Hne].
      * rewrite lookup_insert_eq. rewrite decide_True; [reflexivity | now left].
      * rewrite lookup_insert_ne by congruence.
        rewrite decide_False; [reflexivity |].
        intros Hin. apply elem_of_cons in Hin as [? | ?]; contradiction.
Qed.

Section EngineFacts.
Context `{MessageConstants} `{Environment}.

(** ** [PushMessage], step by step *)

Lemma stamp_eq (msg0 : Message) (messageType : Z) (attrs0 : list Attr) :
  stamp msg0 messageType attrs0
  = {| t := messageType;
       attrs := attrs0 ++ (if messageType =? MessageTypeError
                           then [AString debugStack] else []) |}.
Proof.
  unfold stamp. simpl. destruct (messageType =? MessageTypeError).
  - reflexivity.
  - now rewrite app_nil_r.
Qed.

Lemma PushMessage_nil_pool (start : nat) (messageType : Z) (attrs0 : list Attr)
    (s : Server) :
  messagePool s = None ->
  PushMessage start messageType attrs0 s = (s, Panics nilDereference).
Proof.
  intros Hpool. unfold PushMessage, messagePool_Get, bind, gets.
  now rewrite Hpool.
Qed.

Lemma PushMessage_run (start : nat) (messageType : Z) (attrs0 : list Attr)
    (s : Server) (p : Pool) :
  messagePool s = Some p ->
  PushMessage start messageType attrs0 s
  = let msg := stamp (fst (Pool_Get p)) messageType attrs0 in
    let s' := set_messagePool (Some (snd (Pool_Get p))) s in
    match rangeFirst start (messageChannel s) with
    | None => (s', Ok tt)
    | Some (shard, channel) =>
        match send msg channel with
        | Ok channel' =>
            (set_messageChannel (<[shard := channel']> (messageChannel s)) s', Ok tt)
        | Panics v => (s', Panics v)
        | Blocks => (s', Blocks)
        end
    end.
Proof.
  intros Hpool. unfold PushMessage, messagePool_Get, bind, gets, modify, ret.
  rewrite Hpool. simpl.
  destruct (rangeFirst start (messageChannel s)) as [[shard channel] |]; [| reflexivity].
  now destruct (send _ channel).
Qed.

Lemma send_hasRoom (msg : Message) (channel : Chan) :
  hasRoom channel ->
  send msg channel
  = Ok {| queue := queue channel ++ [msg]; capacity := capacity channel;
          closed := false |}.
Proof.
  intros [Hopen Hroom]. unfold send. rewrite Hopen.
  destruct (capacity channel <=? Z.of_nat (length (queue channel))) eqn:Hfull;
    [apply Z.leb_le in Hfull; lia | reflexivity].
Qed.

Lemma rangeFirst_provisioned (s : Server) (start : nat) :
  1 <= core s ->
  shardsProvisioned s ->
  exists shard channel,
    rangeFirst start (messageChannel s) = Some (shard, channel)
    /\ messageChannel s !! shard = Some channel
    /\ 0 <= shard < core s.
Proof.
  intros Hcore Hshards.
  destruct (proj2 (Hshards 0)) as [first Hfirst]; [lia |].
  destruct (rangeFirst_is_Some start _ _ _ Hfirst) as [[shard channel] Hrange].
  pose proof (rangeFirst_lookup _ _ _ _ Hrange) as Hlook.
  exists shard, channel. repeat split; try assumption; apply Hshards; eauto.
Qed.

(** C1 (as amended).  On a server whose pipeline is provisioned,
    [PushMessage] sends the envelope to exactly one shard queue: the
    first entry that ranging over the shard map visits.  That shard is
    one of the N queues; it is shard 0 when the core count is 1, and for
    a larger core count every shard is the target under some iteration
    order, so two calls need not land on the same shard. *)
Theorem PushMessage_targets_one_shard (s : Server) (p : Pool) (start : nat)
    (messageType : Z) (attrs0 : list Attr) :
  messagePool s = Some p ->
  1 <= core s ->
  shardsProvisioned s ->
  exists shard channel,
    rangeFirst start (messageChannel s) = Some (shard, channel)
    /\ messageChannel s !! shard = Some channel
    /\ 0 <= shard < core s
    /\ (core s = 1 -> shard = 0)
    /\ PushMessage start messageType attrs0 s
       = (let msg := stamp (fst (Pool_Get p)) messageType attrs0 in
          let s' := set_messagePool (Some (snd (Pool_Get p))) s in
          match send msg channel with
          | Ok channel' =>
              (set_messageChannel (<[shard := channel']> (messageChannel s)) s',
               Ok tt)
          | Panics v => (s', Panics v)
          | Blocks => (s', Blocks)
          end)
    /\ (forall other, 0 <= other < core s ->
          exists start', fst <$> rangeFirst start' (messageChannel s) = Some other).
Proof.
  intros Hpool Hcore Hshards.
  destruct (rangeFirst_provisioned s start Hcore Hshards)
    as (shard & channel & Hrange & Hlook & Hin).
  exists shard, channel.
  split; [exact Hrange |].
  split; [exact Hlook |].
  split; [exact Hin |].
  split; [lia |].
  split.
  - rewrite (PushMessage_run _ _ _ _ _ Hpool). simpl. now rewrite Hrange.
  - intros other Hother.
    destruct (proj2 (Hshards other) Hother) as [channel' Hother'].
    destruct (rangeFirst_reaches _ _ _ Hother') as [start' Hstart'].
    exists start'. now rewrite Hstart'.
Qed.

(** ** What [connectionInitHandle] provisions *)

Lemma connectionInitHandle_run (callback : Task) (s : Server) :
  exists s',
    connectionInitHandle callback s = (s', Ok tt)
    /\ messagePool s'
       = Some (NewPool (if messagePoolSize s <=? 0 then 100 else messagePoolSize s)
                       messageGenerator messageReleaser)
    /\ messageChannel s'
       = foldl (fun channels i => <[i := makeChan (4096 * 1000)]> channels)
               ∅ (seqZ 0 (core s))
    /\ core s' = core s
    /\ network s' = network s
    /\ isShutdown s' = isShutdown s
    /\ initMessageChannel s' = true
    /\ closeChannel s' = closeChannel s
    /\ conns s' = conns s
    /\ supportMessageTypes s' = supportMessageTypes s.
Proof.
  unfold connectionInitHandle. run.
  destruct (messagePoolSize s <=? 0); run;
    destruct (network s) eqn:Hnetwork; run;
    (eexists; split; [reflexivity | cbn; repeat split; congruence]).
Qed.

Lemma connectionInitHandle_shards (callback : Task) (s s' : Server) r :
  connectionInitHandle callback s = (s', r) ->
  shardsProvisioned s'
  /\ (forall shard channel,
        messageChannel s' !! shard = Some channel -> channel = makeChan (4096 * 1000)).
Proof.
  intros Hrun.
  destruct (connectionInitHandle_run callback s)
    as (s0 & Hrun0 & _ & Hchannels & Hcore & _).
  rewrite Hrun0 in Hrun. injection Hrun as <- _.
  split.
  - intros shard. rewrite Hchannels, Hcore, lookup_foldl_insert.
    destruct (decide (shard ∈ seqZ 0 (core s))) as [Hin | Hnot].
    + apply elem_of_seqZ in Hin. split; [lia | eauto].
    + rewrite lookup_empty. split.
      * intros [? [=]].
      * intros Hrange. exfalso. apply Hnot. apply elem_of_seqZ. lia.
  - intros shard channel. rewrite Hchannels, lookup_foldl_insert.
    destruct (decide (shard ∈ seqZ 0 (core s))).
    + now intros [= <-].
    + now rewrite lookup_empty.
Qed.

(** ** What the options leave alone *)

Lemma pipelineKept_PreOrder : PreOrder pipelineKept.
Proof.
  split.
  - intros s. unfold pipelineKept. now repeat split.
  - intros s1 s2 s3 H12 H23. unfold pipelineKept in *.
    destruct H12 as (? & ? & ? & ? & ? & ? & ? & ? & ? & ?).
    destruct H23 as (? & ? & ? & ? & ? & ? & ? & ? & ? & ?).
    repeat split; try congruence. auto.
Qed.

Lemma applyOption_keeps (option0 : Option) : respects pipelineKept (applyOption option0).
Proof.
  destruct option0; unfold applyOption;
    try solve [respects_with pipelineKept pipelineKept_PreOrder nothing_known
      ltac:(unfold pipelineKept; cbn; repeat split; solve [reflexivity | intros; lia])].
  (* [WithMultiCore]: the count is stored first and corrected after. *)
  intros s s' r. run. destruct (count <? 1) eqn:Hcount; run;
    intros [= <- _]; unfold pipelineKept; cbn; repeat split;
    intros; first [lia | apply Z.ltb_ge in Hcount; lia].
Qed.

Lemma New_keeps (network0 : Network) (options0 : list Option) (s : Server) r :
  New network0 options0 = (s, r) ->
  messagePool s = None
  /\ messageChannel s = ∅
  /\ initMessageChannel s = false
  /\ isShutdown s = false
  /\ network s = network0
  /\ event s = true
  /\ 1 <= core s.
Proof.
  intros Hnew.
  assert (Hkeep : pipelineKept (newServer network0 options0) s).
  { eapply (respects_forEach pipelineKept pipelineKept_PreOrder); [| exact Hnew].
    intros option0. apply applyOption_keeps. }
  destruct Hkeep as (? & ? & ? & ? & ? & ? & ? & ? & ? & Hcore).
  repeat split; try assumption. apply Hcore. simpl. lia.
Qed.

(** ** [Run] on the two delegated kinds *)

(** Closes a goal that says the effects grew by a list with a property. *)
Ltac appended :=
  first
    [ exists []; split; [symmetry; apply app_nil_r | constructor]
    | eexists; split;
      [rewrite <- ?app_assoc; reflexivity | repeat constructor] ].

Lemma Run_delegated (addr0 : string) (listen : option error) (s s1 : Server) status :
  network s = NetworkHttp \/ network s = NetworkGRPC ->
  Run addr0 listen s = (s1, status) ->
  messagePool s1 = messagePool s
  /\ exists started,
       effects s1 = effects s ++ started
       /\ Forall (fun e => isPipelineInit e = false) started.
Proof.
  intros Hkind. unfold Run, fire.
  destruct Hkind as [Hkind | Hkind]; run_cases; try discriminate;
    intros [= <- _]; cbn; (split; [reflexivity | appended]).
Qed.

(** C10.  [PushMessage] needs the pipeline that only
    [connectionInitHandle] provisions.  On the server [New] returns, for
    any network kind and options, the message pool is nil and every
    [PushMessage] panics on it with a nil dereference, enqueueing
    nothing.  For the HTTP and gRPC kinds [Run] starts no provisioning
    goroutine and leaves the pool nil, so after [Run] every [PushMessage]
    still panics, and so does the push the serving goroutine itself makes
    when its serve call fails. *)
Theorem PushMessage_needs_pipeline (network0 : Network) (options0 : list Option)
    (s : Server) :
  New network0 options0 = (s, Ok tt) ->
  messagePool s = None
  /\ (forall start messageType attrs0,
        PushMessage start messageType attrs0 s = (s, Panics nilDereference))
  /\ (network0 = NetworkHttp \/ network0 = NetworkGRPC ->
      forall addr0 listen s1 status,
        Run addr0 listen s = (s1, status) ->
        messagePool s1 = None
        /\ (exists started,
              effects s1 = effects s ++ started
              /\ Forall (fun e => isPipelineInit e = false) started)
        /\ (forall start messageType attrs0,
              PushMessage start messageType attrs0 s1 = (s1, Panics nilDereference))
        /\ (forall start err,
              serveFailed start (Some err) s1 = (s1, Panics nilDereference)
              /\ snd (httpServe start (Some err) s1)
                 = match handlers StartBefore with
                   | Some v => Panics v
                   | None => Panics nilDereference
                   end
              /\ snd (grpcServe start (Some err) s1)
                 = match handlers StartBefore with
                   | Some v => Panics v
                   | None => Panics nilDereference
                   end)).
Proof.
  intros Hnew.
  destruct (New_keeps _ _ _ _ Hnew) as (Hpool & _ & _ & _ & Hnetwork & _).
  split; [exact Hpool |].
  split; [intros; now apply PushMessage_nil_pool |].
  intros Hkind addr0 listen s1 status Hrun.
  rewrite <- Hnetwork in Hkind.
  destruct (Run_delegated _ _ _ _ _ Hkind Hrun) as (Hpool1 & Hstarted).
  rewrite Hpool in Hpool1.
  split; [exact Hpool1 |].
  split; [exact Hstarted |].
  split; [intros; now apply PushMessage_nil_pool |].
  intros start err.
  assert (Hpush : forall s2, messagePool s2 = None ->
            serveFailed start (Some err) s2 = (s2, Panics nilDereference)).
  { intros s2 Hs2. unfold serveFailed. now apply PushMessage_nil_pool. }
  split; [now apply Hpush |].
  split.
  - unfold httpServe, fire. run.
    destruct (handlers StartBefore); run; [reflexivity |].
    destruct (0 <? _)%nat; now rewrite Hpush.
  - unfold grpcServe, fire. run.
    destruct (handlers StartBefore); run; [reflexivity |].
    now rewrite Hpush.
Qed.

(** ** Error envelopes *)

(** The [switch] on an Error envelope of the right shape is the inner
    [switch] on its directive. *)
Lemma handle_Error (err : error) (action : Z) (stack : string) (s : Server) :
  MessageTypeError <> MessageTypePacket ->
  handle {| t := MessageTypeError; attrs := [AError err; AAction action; AString stack] |} s
  = (if action =? MessageErrorActionNone then emit (LogErrorWithStack stack err)
     else if action =? MessageErrorActionShutdown then Shutdown (Some err) [stack]
     else emit (LogActionNotSupported action)) s.
Proof.
  intros Hkind. unfold handle. cbn [t attrs].
  destruct (MessageTypeError =? MessageTypePacket) eqn:Hpacket;
    [apply Z.eqb_eq in Hpacket; contradiction |].
  rewrite Z.eqb_refl. unfold deconstructError. now rewrite run_ret.
Qed.

(** C6.  [PushMessage(MessageTypeError, err, action)] stamps the
    envelope with the kind, the two attributes and, as the last
    attribute, the stack dump taken at that moment, and sends that
    envelope to the shard the range visits first.  Dispatching it reads
    the three attributes back: the directive none writes one log line
    with the error and the stack and does nothing else before the
    boundary runs; the directive shutdown calls [Shutdown] with that error
    and that stack; any other directive writes one warning and does not
    touch the shutdown flag. *)
Theorem Error_envelope_stack_and_directive (s : Server) (p : Pool) (start : nat)
    (err : error) (action : Z) :
  MessageTypeError <> MessageTypePacket ->
  MessageErrorActionShutdown <> MessageErrorActionNone ->
  messagePool s = Some p ->
  let msg := {| t := MessageTypeError;
                attrs := [AError err; AAction action; AString debugStack] |} in
  stamp (fst (Pool_Get p)) MessageTypeError [AError err; AAction action] = msg
  /\ last (attrs msg) = Some (AString debugStack)
  /\ PushMessage start MessageTypeError [AError err; AAction action] s
     = (let s' := set_messagePool (Some (snd (Pool_Get p))) s in
        match rangeFirst start (messageChannel s) with
        | None => (s', Ok tt)
        | Some (shard, channel) =>
            match send msg channel with
            | Ok channel' =>
                (set_messageChannel (<[shard := channel']> (messageChannel s)) s',
                 Ok tt)
            | Panics v => (s', Panics v)
            | Blocks => (s', Blocks)
            end
        end)
  /\ (forall s0,
        action = MessageErrorActionNone ->
        handle msg s0
        = (set_effects (effects s0 ++ [LogErrorWithStack debugStack err]) s0, Ok tt)
        /\ dispatchMessage msg s0
           = boundary msg None
               (set_effects (effects s0 ++ [LogErrorWithStack debugStack err]) s0))
  /\ (forall s0,
        action = MessageErrorActionShutdown ->
        handle msg s0 = Shutdown (Some err) [debugStack] s0)
  /\ (forall s0,
        action <> MessageErrorActionNone ->
        action <> MessageErrorActionShutdown ->
        handle msg s0
        = (set_effects (effects s0 ++ [LogActionNotSupported action]) s0, Ok tt)
        /\ dispatchMessage msg s0
           = boundary msg None
               (set_effects (effects s0 ++ [LogActionNotSupported action]) s0)).
Proof.
  intros Hkind Hactions Hpool msg.
  assert (Hstamp : stamp (fst (Pool_Get p)) MessageTypeError
                     [AError err; AAction action] = msg).
  { rewrite stamp_eq, Z.eqb_refl. reflexivity. }
  split; [exact Hstamp |].
  split; [reflexivity |].
  split.
  { rewrite (PushMessage_run _ _ _ _ _ Hpool). cbv zeta. now rewrite Hstamp. }
  assert (Hnone : forall s0, action = MessageErrorActionNone ->
            handle msg s0
            = (set_effects (effects s0 ++ [LogErrorWithStack debugStack err]) s0, Ok tt)).
  { intros s0 ->. unfold msg. rewrite handle_Error by assumption.
    now rewrite Z.eqb_refl. }
  assert (Hother : forall s0, action <> MessageErrorActionNone ->
            action <> MessageErrorActionShutdown ->
            handle msg s0
            = (set_effects (effects s0 ++ [LogActionNotSupported action]) s0, Ok tt)).
  { intros s0 Hn Hs. unfold msg. rewrite handle_Error by assumption.
    destruct (action =? MessageErrorActionNone) eqn:E1;
      [apply Z.eqb_eq in E1; contradiction |].
    destruct (action =? MessageErrorActionShutdown) eqn:E2;
      [apply Z.eqb_eq in E2; contradiction |].
    reflexivity. }
  split; [| split].
  - intros s0 Haction. split; [now apply Hnone |].
    unfold dispatchMessage, bind, recover. now rewrite (Hnone s0 Haction).
  - intros s0 ->. unfold msg. rewrite handle_Error by assumption.
    destruct (MessageErrorActionShutdown =? MessageErrorActionNone) eqn:E1;
      [apply Z.eqb_eq in E1; contradiction |].
    now rewrite Z.eqb_refl.
  - intros s0 Hn Hs. split; [now apply Hother |].
    unfold dispatchMessage, bind, recover. now rewrite (Hother s0 Hn Hs).
Qed.

(** ** [Shutdown] *)










(** ** What the handling of an envelope keeps *)

Lemma poolKept_PreOrder : PreOrder poolKept.
Proof.
  split.
  - intros s. split; auto.
  - intros s1 s2 s3 [H12 K12] [H23 K23]. split; auto.
Qed.

Lemma appendsNoFaultLog_PreOrder : PreOrder appendsNoFaultLog.
Proof.
  split.
  - intros s. exists []. split; [symmetry; apply app_nil_r | constructor].
  - intros s1 s2 s3 (es12 & H12 & F12) (es23 & H23 & F23).
    exists (es12 ++ es23). split.
    + rewrite H23, H12. now rewrite app_assoc.
    + now apply Forall_app.
Qed.

Lemma cleanPool_Get (p : Pool) :
  cleanPool p -> cleanPool (snd (Pool_Get p)) /\ fst (Pool_Get p) = zeroMessage.
Proof.
  intros (Hgen & Hrel & Hfree). unfold Pool_Get.
  destruct (free p) as [| m rest] eqn:E; cbn.
  - split; [split; [| split]; try assumption; now rewrite E |].
    now rewrite Hgen.
  - inversion Hfree; subst. split; [| reflexivity].
    split; [| split]; assumption.
Qed.

Lemma cleanPool_Release (msg : Message) (p : Pool) :
  cleanPool p ->
  cleanPool (Pool_Release msg p)
  /\ (poolClosed p = false -> free (Pool_Release msg p) = free p ++ [zeroMessage]).
Proof.
  intros (Hgen & Hrel & Hfree). unfold Pool_Release.
  destruct (poolClosed p); cbn.
  - split; [now split | discriminate].
  - rewrite Hrel. split; [| reflexivity].
    split; [exact Hgen | split; [reflexivity |]].
    cbn. apply Forall_app. split; [assumption | now constructor].
Qed.

Lemma cleanPool_Close (p : Pool) : cleanPool p -> cleanPool (Pool_Close p).
Proof. intros (Hgen & Hrel & _). split; [| split]; try assumption. constructor. Qed.

Lemma messagePool_Close_keeps : respects poolKept messagePool_Close.
Proof.
  intros s s' r. unfold messagePool_Close. run.
  destruct (messagePool s) as [p |] eqn:Hpool; run; intros [= <- _];
    [| stays poolKept_PreOrder].
  split; cbn; [eauto |].
  intros Hclean p' [= <-]. apply cleanPool_Close. now apply Hclean.
Qed.

Lemma messagePool_Release_keeps (msg : Message) :
  respects poolKept (messagePool_Release msg).
Proof.
  intros s s' r. unfold messagePool_Release. run.
  destruct (messagePool s) as [p |] eqn:Hpool; run; intros [= <- _];
    [| stays poolKept_PreOrder].
  split; cbn; [eauto |].
  intros Hclean p' [= <-]. apply cleanPool_Release. now apply Hclean.
Qed.

Lemma messagePool_Get_keeps : respects poolKept messagePool_Get.
Proof.
  intros s s' r. unfold messagePool_Get. run.
  destruct (messagePool s) as [p |] eqn:Hpool; run; intros [= <- _];
    [| stays poolKept_PreOrder].
  split; cbn; [eauto |].
  intros Hclean p' [= <-]. apply cleanPool_Get. now apply Hclean.
Qed.

Ltac poolKept_step := split; cbn; solve [auto].

Lemma Shutdown_keeps_pool (err : option error) (stack : list string) :
  respects poolKept (Shutdown err stack).
Proof.
  unfold Shutdown, Shutdown_enter, Shutdown_release, closeShard, signalClose.
  respects_with poolKept poolKept_PreOrder
    ltac:(apply messagePool_Close_keeps) poolKept_step.
Qed.

Lemma handle_keeps_pool (msg : Message) : respects poolKept (handle msg).
Proof.
  unfold handle, fire, deconstructPacket, deconstructWebSocketPacket,
    deconstructError, deconstructCross, deconstructTicker.
  respects_with poolKept poolKept_PreOrder
    ltac:(apply Shutdown_keeps_pool) poolKept_step.
Qed.

Lemma dispatchMessage_keeps_pool (msg : Message) :
  respects poolKept (dispatchMessage msg).
Proof.
  unfold dispatchMessage, boundary, fire.
  apply (respects_bind poolKept poolKept_PreOrder);
    [apply (respects_recover poolKept), handle_keeps_pool |
     intros recovered].
  respects_with poolKept poolKept_PreOrder
    ltac:(apply messagePool_Release_keeps) poolKept_step.
Qed.

Lemma handle_appends (msg : Message) : respects appendsNoFaultLog (handle msg).
Proof.
  unfold handle, fire, deconstructPacket, deconstructWebSocketPacket,
    deconstructError, deconstructCross, deconstructTicker,
    Shutdown, Shutdown_enter, Shutdown_release, closeShard, signalClose,
    messagePool_Close.
  respects_with appendsNoFaultLog appendsNoFaultLog_PreOrder nothing_known
    ltac:(unfold appendsNoFaultLog; cbn; appended).
Qed.

(** The boundary after a recovered fault, when the hooks it fires
    return and there is a pool to release to. *)
Lemma boundary_recovered (msg : Message) (v : PanicValue) (s : Server) :
  is_Some (messagePool s) ->
  (forall e, v = PanicError e -> handlers (MessageError msg e) = None) ->
  (lowExecThreshold < elapsed msg ->
   handlers (MessageLowExec msg (elapsed msg)) = None) ->
  exists s',
    boundary msg (Some v) s = (s', Ok tt)
    /\ effects s' = effects s ++ boundaryEffects msg v
    /\ messageChannel s' = messageChannel s.
Proof.
  intros [p Hpool] Herror Hslow.
  unfold boundary, boundaryEffects, fire, messagePool_Release.
  assert (Hslow' : (lowExecThreshold <? elapsed msg) = true ->
            handlers (MessageLowExec msg (elapsed msg)) = None)
    by (intros Hlt; apply Hslow; now apply Z.ltb_lt).
  destruct v as [e | other]; run.
  - rewrite (Herror e eq_refl). run.
    destruct (lowExecThreshold <? elapsed msg); run.
    + rewrite (Hslow' eq_refl). run.
      destruct (isShutdown s); run; rewrite ?Hpool; run;
        (eexists; split; [reflexivity |]); cbn;
        (split; [now rewrite <- ?app_assoc | reflexivity]).
    + destruct (isShutdown s); run; rewrite ?Hpool; run;
        (eexists; split; [reflexivity |]); cbn;
        (split; [now rewrite <- ?app_assoc | reflexivity]).
  - destruct (lowExecThreshold <? elapsed msg); run.
    + rewrite (Hslow' eq_refl). run.
      destruct (isShutdown s); run; rewrite ?Hpool; run;
        (eexists; split; [reflexivity |]); cbn;
        (split; [now rewrite <- ?app_assoc | reflexivity]).
    + destruct (isShutdown s); run; rewrite ?Hpool; run;
        (eexists; split; [reflexivity |]); cbn;
        (split; [now rewrite <- ?app_assoc | reflexivity]).
Qed.

(** The boundary returns whatever was recovered, under the same
    provisos. *)
Lemma boundary_returns (msg : Message) (recovered : option PanicValue) (s : Server) :
  is_Some (messagePool s) ->
  (forall e, handlers (MessageError msg e) = None) ->
  handlers (MessageLowExec msg (elapsed msg)) = None ->
  exists s', boundary msg recovered s = (s', Ok tt).
Proof.
  intros Hpool Herror Hslow.
  destruct recovered as [v |].
  - destruct (boundary_recovered msg v s Hpool) as (s' & Hrun & _); eauto.
  - destruct Hpool as [p Hpool].
    unfold boundary, fire, messagePool_Release. run.
    destruct (lowExecThreshold <? elapsed msg); run; rewrite ?Hslow; run;
      destruct (isShutdown s); run; rewrite ?Hpool; run; eauto.
Qed.

Lemma dispatchMessage_never_panics (msg : Message) (s s' : Server) r :
  is_Some (messagePool s) ->
  (forall e, handlers (MessageError msg e) = None) ->
  handlers (MessageLowExec msg (elapsed msg)) = None ->
  dispatchMessage msg s = (s', r) ->
  r = Ok tt \/ r = Blocks.
Proof.
  intros Hpool Herror Hslow. unfold dispatchMessage, bind, recover.
  destruct (handle msg s) as [s1 [[] | v |]] eqn:Hhandle.
  - assert (Hpool1 : is_Some (messagePool s1))
      by (apply (handle_keeps_pool msg _ _ _ Hhandle); exact Hpool).
    destruct (boundary_returns msg None s1 Hpool1 Herror Hslow) as [s2 ->].
    intros [= _ <-]. now left.
  - assert (Hpool1 : is_Some (messagePool s1))
      by (apply (handle_keeps_pool msg _ _ _ Hhandle); exact Hpool).
    destruct (boundary_returns msg (Some v) s1 Hpool1 Herror Hslow) as [s2 ->].
    intros [= _ <-]. now left.
  - intros [= _ <-]. now right.
Qed.

Lemma receive_keeps_pool (shard : Z) (s s' : Server) r :
  receive shard s = (s', r) ->
  messagePool s' = messagePool s /\ forall v, r <> Panics v.
Proof.
  unfold receive. run_cases; intros [= <- <-]; split;
    first [reflexivity | discriminate].
Qed.

(** With handlers of the two boundary hooks that return, no turn of the
    dispatch loop ends in a panic, whatever the other handlers do. *)
Lemma dispatchLoop_never_panics (turns : nat) (shard : Z) (s s' : Server) r :
  (forall m e, handlers (MessageError m e) = None) ->
  (forall m, handlers (MessageLowExec m (elapsed m)) = None) ->
  is_Some (messagePool s) ->
  dispatchLoop turns shard s = (s', r) ->
  r = Ok tt \/ r = Blocks.
Proof.
  intros Herror Hslow. revert s.
  induction turns as [| turns IH]; intros s Hpool; cbn [dispatchLoop].
  - intros [= _ <-]. now left.
  - intros Hrun.
    destruct (bind_inv _ _ _ _ _ Hrun)
      as [(s1 & next & Hreceive & Hrest) | [(v & Hreceive & _) | (_ & ->)]].
    + destruct (receive_keeps_pool _ _ _ _ Hreceive) as [Hsame _].
      destruct next as [message |]; [| injection Hrest as _ <-; now left].
      destruct (bind_inv _ _ _ _ _ Hrest)
        as [(s2 & [] & Hdispatch & Hloop) | [(v & Hdispatch & ->) | (_ & ->)]].
      * apply (IH s2); [| exact Hloop].
        apply (dispatchMessage_keeps_pool message _ _ _ Hdispatch).
        now rewrite Hsame.
      * exfalso.
        assert (Hpool1 : is_Some (messagePool s1)) by now rewrite Hsame.
        destruct (dispatchMessage_never_panics message _ _ _ Hpool1
                    (Herror message) (Hslow message) Hdispatch); discriminate.
      * now right.
    + exfalso. destruct (receive_keeps_pool _ _ _ _ Hreceive) as [_ Hno].
      now apply (Hno v).
    + now right.
Qed.

(** C3 (as amended).  When the handling of an envelope panics, the
    boundary recovers the panic and, provided the handlers of the
    message-error hook and of the low-exec hook that the boundary itself
    fires return, [dispatchMessage] returns: the handling wrote no fault
    line of its own, the boundary writes exactly one with the kind, the
    attributes and the panic value, fires the message-error hook exactly
    when the value is an error, and the loop of the shard goes on to its
    next turn from the state the boundary left.  When the handlers of
    those two hooks return for every envelope, no run of the dispatch
    loop ends in a panic: it returns or parks on its queue. *)
Theorem handler_fault_is_contained (msg : Message) (v : PanicValue)
    (s s1 : Server) :
  handle msg s = (s1, Panics v) ->
  is_Some (messagePool s) ->
  (forall e, v = PanicError e -> handlers (MessageError msg e) = None) ->
  (lowExecThreshold < elapsed msg ->
   handlers (MessageLowExec msg (elapsed msg)) = None) ->
  exists s2 handled,
    dispatchMessage msg s = (s2, Ok tt)
    /\ effects s1 = effects s ++ handled
    /\ effects s2 = effects s ++ handled ++ boundaryEffects msg v
    /\ length (filter (fun e => isHandlerFaultLog e)
                 (handled ++ boundaryEffects msg v)) = 1%nat
    /\ (forall e,
          In (Fired (MessageError msg e)) (boundaryEffects msg v)
          <-> v = PanicError e)
    /\ (forall turns shard s0,
          receive shard s0 = (s, Ok (Some msg)) ->
          dispatchLoop (S turns) shard s0 = dispatchLoop turns shard s2)
    /\ ((forall m e, handlers (MessageError m e) = None) ->
        (forall m, handlers (MessageLowExec m (elapsed m)) = None) ->
        forall turns shard s0 s' r,
          is_Some (messagePool s0) ->
          dispatchLoop turns shard s0 = (s', r) ->
          r = Ok tt \/ r = Blocks).
Proof.
  intros Hhandle Hpool Herror Hslow.
  destruct (handle_appends msg _ _ _ Hhandle) as (handled & Hhandled & Hquiet).
  assert (Hpool1 : is_Some (messagePool s1))
    by (apply (handle_keeps_pool msg _ _ _ Hhandle); exact Hpool).
  destruct (boundary_recovered msg v s1 Hpool1 Herror Hslow)
    as (s2 & Hboundary & Heffects & _).
  assert (Hdispatch : dispatchMessage msg s = (s2, Ok tt)).
  { unfold dispatchMessage, bind, recover. now rewrite Hhandle. }
  exists s2, handled.
  split; [exact Hdispatch |].
  split; [exact Hhandled |].
  split; [now rewrite Heffects, Hhandled, <- app_assoc |].
  split.
  { rewrite filter_app, length_app.
    assert (Hnone : filter (fun e => isHandlerFaultLog e) handled = []).
    { clear - Hquiet. induction Hquiet as [| e es He _ IH]; [reflexivity |].
      rewrite filter_cons. destruct (decide (isHandlerFaultLog e)) as [Hd | Hd].
      - rewrite He in Hd. contradiction.
      - exact IH. }
    rewrite Hnone. unfold boundaryEffects.
    destruct v; destruct (lowExecThreshold <? elapsed msg); reflexivity. }
  split.
  { intros e. unfold boundaryEffects. split.
    - destruct v as [e' | other];
        destruct (lowExecThreshold <? elapsed msg); cbn;
        intros Hin; repeat (destruct Hin as [Hin | Hin]; try discriminate Hin);
        try contradiction; now injection Hin as ->.
    - intros ->. right. now left. }
  split.
  { intros turns shard s0 Hreceive.
    cbn [dispatchLoop]. rewrite (bind_Ok _ _ _ _ _ Hreceive).
    now rewrite (bind_Ok _ _ _ _ _ Hdispatch). }
  intros Hallerror Hallslow turns shard s0 s' r Hpool0 Hloop.
  exact (dispatchLoop_never_panics turns shard s0 s' r
           Hallerror Hallslow Hpool0 Hloop).
Qed.

(** ** The release at the end of the boundary *)



(** ** The provisioned pipeline is an invariant *)

Lemma shardsKept_PreOrder : PreOrder shardsKept.
Proof.
  split.
  - intros s. split; [reflexivity | tauto].
  - intros s1 s2 s3 [C12 K12] [C23 K23]. split; [congruence |].
    intros shard. rewrite K23. apply K12.
Qed.

Lemma closeShard_keeps_shards (shard : Z) : respects shardsKept (closeShard shard).
Proof.
  intros s s' r. unfold closeShard. run.
  destruct (messageChannel s !! shard) as [channel |] eqn:Hshard; run;
    [destruct (closed channel); run |]; intros [= <- _];
    try (stays shardsKept_PreOrder).
  split; [reflexivity |]. cbn. intros k.
  destruct (decide (k = shard)) as [-> | Hne].
  - rewrite lookup_insert_eq, Hshard. split; eauto.
  - now rewrite lookup_insert_ne by congruence.
Qed.

Ltac shardsKept_step := split; cbn; [reflexivity | tauto].

Lemma Shutdown_keeps_shards (err : option error) (stack : list string) :
  respects shardsKept (Shutdown err stack).
Proof.
  unfold Shutdown, Shutdown_enter, Shutdown_release, signalClose, messagePool_Close.
  respects_with shardsKept shardsKept_PreOrder
    ltac:(apply closeShard_keeps_shards) shardsKept_step.
Qed.

Lemma dispatchMessage_keeps_shards (msg : Message) :
  respects shardsKept (dispatchMessage msg).
Proof.
  unfold dispatchMessage, boundary, handle, fire, messagePool_Release,
    deconstructPacket, deconstructWebSocketPacket, deconstructError,
    deconstructCross, deconstructTicker.
  respects_with shardsKept shardsKept_PreOrder
    ltac:(apply Shutdown_keeps_shards) shardsKept_step.
Qed.

Lemma PushMessage_keeps_pool (start : nat) (messageType : Z) (attrs0 : list Attr) :
  respects poolKept (PushMessage start messageType attrs0).
Proof.
  unfold PushMessage.
  apply (respects_bind poolKept poolKept_PreOrder);
    [apply messagePool_Get_keeps | intros msg0].
  respects_with poolKept poolKept_PreOrder nothing_known poolKept_step.
Qed.

Lemma PushMessage_keeps_shards (start : nat) (messageType : Z) (attrs0 : list Attr) :
  respects shardsKept (PushMessage start messageType attrs0).
Proof.
  intros s s' r.
  destruct (messagePool s) as [p |] eqn:Hpool.
  - rewrite (PushMessage_run _ _ _ _ _ Hpool). cbv zeta.
    destruct (rangeFirst start (messageChannel s)) as [[shard channel] |] eqn:Hrange.
    + pose proof (rangeFirst_lookup _ _ _ _ Hrange) as Hlook.
      destruct (send _ channel) as [channel' | v |]; intros [= <- _];
        (split; [reflexivity |]); cbn; intros k; try tauto.
      destruct (decide (k = shard)) as [-> | Hne].
      * rewrite lookup_insert_eq, Hlook. split; eauto.
      * now rewrite lookup_insert_ne by congruence.
    + intros [= <- _]. split; cbn; [reflexivity | tauto].
  - rewrite (PushMessage_nil_pool _ _ _ _ Hpool). intros [= <- _].
    stays shardsKept_PreOrder.
Qed.

(** Every step built from a pool-keeping and shard-keeping computation
    leaves a provisioned pipeline provisioned. *)
Lemma provisioned_kept {A : Type} (m : M A) (s s' : Server) r :
  respects poolKept m ->
  respects shardsKept m ->
  m s = (s', r) ->
  provisioned s ->
  provisioned s'.
Proof.
  intros Hpool Hshards Hrun ((p & Hp & Hclean) & Hcore & Hprov).
  destruct (Hpool _ _ _ Hrun) as [Hsome Hcleaned].
  destruct (Hshards _ _ _ Hrun) as [Hcore' Hkeys].
  split; [| split].
  - destruct Hsome as [p' Hp']; [eauto |].
    exists p'. split; [exact Hp' |]. apply Hcleaned; [| exact Hp'].
    intros p0 Hp0. rewrite Hp in Hp0. now injection Hp0 as <-.
  - now rewrite Hcore'.
  - intros shard. rewrite Hkeys, Hcore'. apply Hprov.
Qed.

Lemma connectionInitHandle_provisioned (callback : Task) (s s' : Server) r :
  1 <= core s ->
  connectionInitHandle callback s = (s', r) ->
  provisioned s'.
Proof.
  intros Hcore Hrun.
  destruct (connectionInitHandle_shards _ _ _ _ Hrun) as [Hshards _].
  destruct (connectionInitHandle_run callback s)
    as (s0 & Hrun0 & Hpool & _ & Hcore0 & _).
  rewrite Hrun in Hrun0. injection Hrun0 as <- _.
  split; [| split; [now rewrite Hcore0 | exact Hshards]].
  eexists. split; [exact Hpool |].
  split; [reflexivity | split; [reflexivity | constructor]].
Qed.

Lemma PushMessage_provisioned (start : nat) (messageType : Z) (attrs0 : list Attr)
    (s s' : Server) r :
  PushMessage start messageType attrs0 s = (s', r) ->
  provisioned s -> provisioned s'.
Proof.
  apply provisioned_kept;
    [apply PushMessage_keeps_pool | apply PushMessage_keeps_shards].
Qed.

Lemma dispatchMessage_provisioned (msg : Message) (s s' : Server) r :
  dispatchMessage msg s = (s', r) ->
  provisioned s -> provisioned s'.
Proof.
  apply provisioned_kept;
    [apply dispatchMessage_keeps_pool | apply dispatchMessage_keeps_shards].
Qed.

(** ** Listener failures *)

Lemma Run_keeps (addr0 : string) (listen : option error) :
  respects pipelineKept (Run addr0 listen).
Proof.
  unfold Run, fire.
  respects_with pipelineKept pipelineKept_PreOrder nothing_known
    ltac:(unfold pipelineKept; cbn; repeat split; solve [reflexivity | intros; lia]).
Qed.

Lemma Run_bind_failure (addr0 : string) (err : error) (s : Server) :
  event s = true ->
  network s = NetworkKcp \/ network s = NetworkGRPC ->
  Run addr0 (Some err) s = (set_addr addr0 s, Ok (RunError err)).
Proof.
  intros Hevent Hkind. unfold Run. run. rewrite Hevent. run.
  destruct Hkind as [-> | ->]; run; reflexivity.
Qed.

Lemma Run_starts_pipeline (addr0 : string) (listen : option error)
    (s s1 : Server) status :
  event s = true ->
  Run addr0 listen s = (s1, status) ->
  (usesGnet (network s) = true -> In (Go (ConnectionInit GnetServe)) (effects s1))
  /\ (network s = NetworkWebsocket ->
      In (Go (ConnectionInit WebsocketListen)) (effects s1)).
Proof.
  intros Hevent. unfold Run, fire. run. rewrite Hevent. run.
  destruct (network s) eqn:Hnetwork; run_cases; intros [= <- _]; cbn;
    (split; [intros Hgnet | intros Hws]); try discriminate;
    rewrite ?in_app_iff; cbn; tauto.
Qed.

(** C4 (as amended).  On a server built by [New]: for the reliable-UDP
    and the gRPC kind a failure to bind the address makes [Run] return
    that error, with no goroutine started and no envelope pushed.  For
    the raw-socket kinds and the WebSocket kind [Run] starts the
    goroutine that provisions the pipeline, and once it has run, a
    failed serve call is pushed as an Error envelope carrying the error,
    the shutdown directive and the stack; the envelope is queued on one
    shard, and dispatching it calls [Shutdown] with that error and that
    stack from the dispatch loop. *)
Theorem serve_failure_routed_bind_failure_returned (network0 : Network)
    (options0 : list Option) (addr0 : string) (listen : option error)
    (s0 s1 : Server) (status : Res RunStatus) :
  MessageTypeError <> MessageTypePacket ->
  MessageErrorActionShutdown <> MessageErrorActionNone ->
  New network0 options0 = (s0, Ok tt) ->
  Run addr0 listen s0 = (s1, status) ->
  (network0 = NetworkKcp \/ network0 = NetworkGRPC ->
   forall err, listen = Some err ->
     status = Ok (RunError err)
     /\ s1 = set_addr addr0 s0
     /\ effects s1 = effects s0
     /\ messageChannel s1 = ∅
     /\ isShutdown s1 = false)
  /\ (usesGnet network0 = true \/ network0 = NetworkWebsocket ->
      let callback := if usesGnet network0 then GnetServe else WebsocketListen in
      In (Go (ConnectionInit callback)) (effects s1)
      /\ forall s2 start err,
           connectionInitHandle callback s1 = (s2, Ok tt) ->
           (exists shard s3,
              0 <= shard < core s2
              /\ messageChannel s2 !! shard = Some (makeChan (4096 * 1000))
              /\ serveFailed start (Some err) s2 = (s3, Ok tt)
              /\ messageChannel s3
                 = <[shard := {| queue := [serveFailure err];
                                 capacity := 4096 * 1000;
                                 closed := false |}]> (messageChannel s2)
              /\ isShutdown s3 = false
              /\ snd (receive shard s3) = Ok (Some (serveFailure err)))
           /\ (forall s', handle (serveFailure err) s'
                          = Shutdown (Some err) [debugStack] s')
           /\ (forall s', gnetServe start (Some err) s'
                          = (fire StartBefore ;; serveFailed start (Some err)) s')
           /\ (forall s', websocketServe start (Some err) s'
                          = (fire StartBefore ;; serveFailed start (Some err)) s')).
Proof.
  intros Hkinds Hactions Hnew Hrun.
  destruct (New_keeps _ _ _ _ Hnew)
    as (Hpool0 & Hchannels0 & _ & Hflag0 & Hnetwork0 & Hevent0 & Hcore0).
  split.
  - intros Hkind err ->. rewrite <- Hnetwork0 in Hkind.
    rewrite (Run_bind_failure _ _ _ Hevent0 Hkind) in Hrun.
    injection Hrun as <- <-. repeat split; cbn; first [reflexivity | assumption].
  - intros Hkind callback.
    destruct (Run_starts_pipeline _ _ _ _ _ Hevent0 Hrun) as [Hgnet Hws].
    rewrite Hnetwork0 in Hgnet, Hws.
    destruct (Run_keeps _ _ _ _ _ Hrun)
      as (_ & _ & _ & Hflag1 & _ & _ & _ & _ & _ & Hcore1).
    split.
    { subst callback. destruct (usesGnet network0) eqn:Huses; [now apply Hgnet |].
      destruct Hkind as [? | ->]; [discriminate | now apply Hws]. }
    intros s2 start err Hinit.
    destruct (connectionInitHandle_run callback s1)
      as (s2' & Hinit' & Hpool2 & _ & Hcore2 & _ & Hflag2 & _).
    rewrite Hinit in Hinit'. injection Hinit' as <-.
    destruct (connectionInitHandle_shards _ _ _ _ Hinit) as [Hshards Hfresh].
    assert (Hcore : 1 <= core s2) by (rewrite Hcore2; auto).
    destruct (rangeFirst_provisioned s2 start Hcore Hshards)
      as (shard & channel & Hrange & Hlook & Hin).
    pose proof (Hfresh _ _ Hlook) as ->.
    split; [| split; [| split]].
    + exists shard. eexists. split; [exact Hin |]. split; [exact Hlook |].
      unfold serveFailed. rewrite (PushMessage_run _ _ _ _ _ Hpool2).
      cbv zeta. rewrite Hrange, stamp_eq, Z.eqb_refl. cbn.
      split; [reflexivity |]. split; [reflexivity |].
      split; [cbn; rewrite Hflag2, Hflag1; exact Hflag0 |].
      unfold receive. run. now rewrite lookup_insert_eq.
    + intros s'. unfold serveFailure. rewrite handle_Error by assumption.
      destruct (MessageErrorActionShutdown =? MessageErrorActionNone) eqn:E;
        [apply Z.eqb_eq in E; contradiction |].
      now rewrite Z.eqb_refl.
    + reflexivity.
    + intros s'. unfold websocketServe. apply bind_ext. intros _ s''. run.
      now destruct (0 <? _)%nat.
Qed.

(** ** The WebSocket allow-list *)

Lemma lookup_supports (messageTypes : list Z) (supports : gmap Z bool) k :
  foldl (fun supports messageType =>
           if isWebsocketMessageType messageType
           then <[messageType := true]> supports
           else supports) supports messageTypes !! k
  = if decide (k ∈ messageTypes /\ isWebsocketMessageType k = true)
    then Some true else supports !! k.
Proof.
  revert supports. induction messageTypes as [| x xs IH]; intros supports;
    cbn [foldl].
  - destruct (decide _) as [[Hin _] | _]; [inversion Hin | reflexivity].
  - rewrite IH.
    destruct (decide (k ∈ xs /\ isWebsocketMessageType k = true)) as [[Hin Hv] | Hnot];
      destruct (decide (k ∈ x :: xs /\ isWebsocketMessageType k = true))
        as [[Hin' Hv'] | Hnot'].
    + reflexivity.
    + exfalso. apply Hnot'. split; [now right | assumption].
    + assert (k = x) as ->.
      { apply elem_of_cons in Hin' as [? | ?]; [assumption |].
        exfalso. apply Hnot. now split. }
      rewrite Hv'. apply lookup_insert_eq.
    + destruct (isWebsocketMessageType x) eqn:Hx; [| reflexivity].
      apply lookup_insert_ne. intros ->. apply Hnot'. split; [now left | assumption].
Qed.

Lemma OnConnectionClosedEvent_run (conn : ConnPtr) (c : Conn) (s : Server) :
  conns s !! conn = Some c ->
  exists s' r calls,
    OnConnectionClosedEvent conn s = (s', r)
    /\ effects s' = effects s ++ Fired (ConnectionClosed conn) :: map Transport calls
    /\ messageChannel s' = messageChannel s
    /\ (handlers (ConnectionClosed conn) = None ->
        r = Ok tt
        /\ calls = snd (Conn_Close c)
        /\ conns s' !! conn = Some (fst (Conn_Close c))).
Proof.
  intros Hconn. unfold OnConnectionClosedEvent, fire, closeConn. run.
  destruct (handlers (ConnectionClosed conn)) as [v |]; run.
  - exists (set_effects (effects s ++ [Fired (ConnectionClosed conn)]) s),
      (Panics v), [].
    split; [reflexivity |]. split; [reflexivity |]. split; [reflexivity |].
    discriminate.
  - rewrite Hconn. run.
    eexists. exists (Ok tt), (snd (Conn_Close c)).
    split; [reflexivity |]. cbn.
    split; [now rewrite <- app_assoc |]. split; [reflexivity |].
    intros _. split; [reflexivity |]. split; [reflexivity |].
    now rewrite lookup_insert_eq.
Qed.

Lemma forEach_warnings (messageTypes : list Z) (s : Server) :
  exists es,
    forEach (fun messageType =>
               if isWebsocketMessageType messageType then ret tt
               else emit (LogOptionWarning "WitchWebsocketMessageType"
                            messageType (Some ErrWebsocketMessageTypeException)))
            messageTypes s
    = (set_effects (effects s ++ es) s, Ok tt).
Proof.
  revert s. induction messageTypes as [| x xs IH]; intros s; cbn [forEach].
  - exists []. rewrite end_ret. f_equal. destruct s; unfold set_effects; cbn.
    now rewrite app_nil_r.
  - destruct (isWebsocketMessageType x); run.
    + apply IH.
    + destruct (IH (set_effects (effects s ++
                  [LogOptionWarning "WitchWebsocketMessageType" x
                     (Some ErrWebsocketMessageTypeException)]) s)) as [es Hes].
      eexists. rewrite Hes. cbn. unfold set_effects; cbn.
      now rewrite <- app_assoc.
Qed.

Lemma WithWebsocketMessageType_run (messageTypes : list Z) (s : Server) :
  network s = NetworkWebsocket ->
  exists s',
    applyOption (WithWebsocketMessageType messageTypes) s = (s', Ok tt)
    /\ (forall k,
          supportMessageTypes s' !! k = Some true
          <-> k ∈ messageTypes /\ isWebsocketMessageType k = true)
    /\ ((exists k, k ∈ messageTypes /\ isWebsocketMessageType k = true) ->
        (0 < size (supportMessageTypes s'))%nat).
Proof.
  intros Hnetwork. unfold applyOption. run. rewrite Hnetwork.
  destruct (forEach_warnings messageTypes s) as [es Hes].
  rewrite (bind_Ok _ _ _ _ _ Hes). run.
  eexists. split; [reflexivity |]. cbn.
  assert (Hlisted : forall k,
            foldl (fun supports messageType =>
                     if isWebsocketMessageType messageType
                     then <[messageType := true]> supports
                     else supports) (∅ : gmap Z bool) messageTypes !! k = Some true
            <-> k ∈ messageTypes /\ isWebsocketMessageType k = true).
  { intros k. rewrite lookup_supports.
    destruct (decide (k ∈ messageTypes /\ isWebsocketMessageType k = true)).
    - tauto.
    - rewrite lookup_empty. split; [discriminate | contradiction]. }
  split; [exact Hlisted |].
  intros (k & Hk). apply Hlisted in Hk.
  destruct (size _) eqn:Hsize; [| lia].
  apply map_size_empty_iff in Hsize. rewrite Hsize, lookup_empty in Hk.
  discriminate.
Qed.

(** C7.  With a non-empty allow-list, reading a frame whose sub-type is
    not in it panics with the illegal-message-type error before anything
    is pushed; the deferred function of the read loop recovers the panic
    and calls the connection-closed event, which fires the hook once and
    then closes the connection, and the loop reads no further frame.  A
    frame whose sub-type is in the list, and any frame when the list is
    empty, is pushed as a Packet envelope whose attributes are the
    connection, the payload as read and the sub-type.  The list is empty
    on a new server, and [WithWebsocketMessageType] on a WebSocket server
    stores the valid sub-types it is given. *)
Theorem websocket_allow_list_enforced (s : Server) (conn : ConnPtr) (c : Conn)
    (start : nat) (messageType : Z) (packet : list Byte.byte)
    (rest : list (nat * Read)) :
  MessageTypeError <> MessageTypePacket ->
  conns s !! conn = Some c ->
  ((0 < size (supportMessageTypes s))%nat ->
   supportMessageTypes s !! messageType <> Some true ->
   websocketTurn conn start (ReadMessage messageType packet) s
   = (s, Panics (PanicError ErrWebsocketIllegalMessageType))
   /\ websocketRead conn ((start, ReadMessage messageType packet) :: rest) s
      = OnConnectionClosedEvent conn s
   /\ exists s' r calls,
        OnConnectionClosedEvent conn s = (s', r)
        /\ effects s' = effects s ++ Fired (ConnectionClosed conn) :: map Transport calls
        /\ messageChannel s' = messageChannel s
        /\ (handlers (ConnectionClosed conn) = None ->
            r = Ok tt
            /\ calls = snd (Conn_Close c)
            /\ conns s' !! conn = Some (fst (Conn_Close c))
            /\ write (fst (Conn_Close c)) = None))
  /\ ((size (supportMessageTypes s) = 0)%nat
      \/ supportMessageTypes s !! messageType = Some true ->
      websocketTurn conn start (ReadMessage messageType packet) s
      = PushMessage start MessageTypePacket
          [AConn conn; ABytes packet; AInt messageType] s
      /\ forall msg0,
           stamp msg0 MessageTypePacket [AConn conn; ABytes packet; AInt messageType]
           = {| t := MessageTypePacket;
                attrs := [AConn conn; ABytes packet; AInt messageType] |})
  /\ (forall network0 options0,
        supportMessageTypes (newServer network0 options0) = ∅)
  /\ (forall messageTypes s0,
        network s0 = NetworkWebsocket ->
        exists s0',
          applyOption (WithWebsocketMessageType messageTypes) s0 = (s0', Ok tt)
          /\ (forall k,
                supportMessageTypes s0' !! k = Some true
                <-> k ∈ messageTypes /\ isWebsocketMessageType k = true)
          /\ ((exists k, k ∈ messageTypes /\ isWebsocketMessageType k = true) ->
              (0 < size (supportMessageTypes s0'))%nat)).
Proof.
  intros Hkinds Hconn.
  split; [| split; [| split]].
  - intros Hsome Hnot.
    assert (Hturn : websocketTurn conn start (ReadMessage messageType packet) s
                    = (s, Panics (PanicError ErrWebsocketIllegalMessageType))).
    { unfold websocketTurn. run.
      destruct (0 <? size (supportMessageTypes s))%nat eqn:Hsize;
        [| apply Nat.ltb_ge in Hsize; lia].
      destruct (supportMessageTypes s !! messageType) as [[] |];
        [contradiction | reflexivity | reflexivity]. }
    split; [exact Hturn |].
    split.
    + unfold websocketRead. cbn [websocketReadLoop].
      unfold bind at 1. unfold recover.
      now rewrite (bind_Panics _ _ _ _ _ Hturn).
    + destruct (OnConnectionClosedEvent_run conn c s Hconn)
        as (s' & r & calls & Hrun & Heffects & Hchannels & Hclosed).
      exists s', r, calls. repeat split; try assumption; now apply Hclosed.
  - intros Hallowed. split.
    + unfold websocketTurn. run.
      destruct Hallowed as [Hempty | Hlisted].
      * rewrite Hempty. reflexivity.
      * rewrite Hlisted. cbn. now rewrite andb_false_r.
    + intros msg0. rewrite stamp_eq.
      destruct (MessageTypePacket =? MessageTypeError) eqn:E;
        [apply Z.eqb_eq in E; congruence | reflexivity].
  - reflexivity.
  - intros messageTypes s0. apply WithWebsocketMessageType_run.
Qed.

End EngineFacts.

(** * The claims at concrete inputs *)

Section Concrete.
#[local] Existing Instance iotaConstants.
#[local] Existing Instance quietEnvironment.


(** C1, as stated, fails: on a provisioned server with two cores, two
    calls of [PushMessage] whose ranges start at different entries of the
    shard map leave one envelope on shard 1 and the other on shard 0. *)
Lemma PushMessage_shards_differ :
  let s := tcpServer 2 in
  let s' := after (PushMessage 1 MessageTypePacket (packetOf 1%N [Byte.x02])
                     (after (PushMessage 0 MessageTypePacket (packetOf 1%N [Byte.x01]) s))) in
  core s = 2
  /\ queue <$> messageChannel s' !! 1
     = Some [{| t := MessageTypePacket; attrs := packetOf 1%N [Byte.x01] |}]
  /\ queue <$> messageChannel s' !! 0
     = Some [{| t := MessageTypePacket; attrs := packetOf 1%N [Byte.x02] |}].
Proof. vm_compute. repeat split. Qed.

(** The hypotheses of C1 hold on the provisioned two-core server. *)
Lemma PushMessage_targets_one_shard_witness :
  messagePool (tcpServer 2) = Some (NewPool 100 messageGenerator messageReleaser)
  /\ 1 <= core (tcpServer 2)
  /\ shardsProvisioned (tcpServer 2)
  /\ exists shard,
       0 <= shard < core (tcpServer 2)
       /\ fst <$> rangeFirst 0 (messageChannel (tcpServer 2)) = Some shard.
Proof.
  assert (Hpool : messagePool (tcpServer 2)
                  = Some (NewPool 100 messageGenerator messageReleaser))
    by reflexivity.
  assert (Hcore : 1 <= core (tcpServer 2)) by (vm_compute; discriminate).
  assert (Hshards : shardsProvisioned (tcpServer 2)).
  { unfold tcpServer, after.
    eapply connectionInitHandle_shards. apply surjective_pairing. }
  split; [exact Hpool |]. split; [exact Hcore |]. split; [exact Hshards |].
  destruct (PushMessage_targets_one_shard (tcpServer 2) _ 0 MessageTypePacket
              (packetOf 1%N [Byte.x01]) Hpool Hcore Hshards)
    as (shard & channel & Hrange & _ & Hin & _).
  exists shard. split; [exact Hin |]. now rewrite Hrange.
Defined.



(** C3, as stated, fails.  The handlers of the packet hook panic on the
    first of two queued envelopes; the boundary recovers, logs and fires
    the message-error hook, whose handlers panic in turn, outside any
    [recover]: the dispatch loop of the shard ends with that panic and
    the second envelope stays in the queue. *)
Lemma dispatchLoop_ends_on_hook_fault :
  let s' := after (@dispatchLoop iotaConstants faultyEnvironment 2 0 twoQueued) in
  queue <$> messageChannel twoQueued !! 0
  = Some [{| t := MessageTypePacket; attrs := packetOf 1%N [Byte.x01] |};
          {| t := MessageTypePacket; attrs := packetOf 1%N [Byte.x02] |}]
  /\ snd (@dispatchLoop iotaConstants faultyEnvironment 2 0 twoQueued)
     = Panics (PanicError (ErrExternal "error handler"))
  /\ queue <$> messageChannel s' !! 0
     = Some [{| t := MessageTypePacket; attrs := packetOf 1%N [Byte.x02] |}]
  /\ filter (fun e => isHandlerFaultLog e) (effects s')
     = [LogHandlerFault MessageTypePacket (packetOf 1%N [Byte.x01])
          (PanicError (ErrExternal "handler"))].
Proof. vm_compute. repeat split. Qed.

(** The hypotheses of C3 hold when only the packet handlers panic. *)
Lemma handler_fault_is_contained_witness :
  let msg := {| t := MessageTypePacket; attrs := packetOf 1%N [Byte.x01] |} in
  snd (@handle iotaConstants packetFaultEnvironment msg (tcpServer 1))
  = Panics (PanicError (ErrExternal "handler"))
  /\ exists s2,
       @dispatchMessage iotaConstants packetFaultEnvironment msg (tcpServer 1)
       = (s2, Ok tt).
Proof.
  intros msg. split; [reflexivity |].
  assert (Hhandle : @handle iotaConstants packetFaultEnvironment msg (tcpServer 1)
                    = (after (@handle iotaConstants packetFaultEnvironment msg
                                (tcpServer 1)),
                       Panics (PanicError (ErrExternal "handler"))))
    by (vm_compute; reflexivity).
  destruct (@handler_fault_is_contained iotaConstants packetFaultEnvironment
              msg _ _ _ Hhandle)
    as (s2 & handled & Hdispatch & _).
  - vm_compute. eauto.
  - intros e _. reflexivity.
  - intros Hslow. vm_compute in Hslow. discriminate.
  - exists s2. exact Hdispatch.
Defined.

(** C4, as stated, fails for the reliable-UDP kind: when binding the
    address fails, [Run] returns the error itself; no goroutine is
    started, no envelope is queued and [Shutdown] is not entered. *)
Lemma Run_returns_bind_failure :
  let s := after (New NetworkKcp []) in
  let r := Run ":8888" (Some (ErrExternal "bind")) s in
  snd r = Ok (RunError (ErrExternal "bind"))
  /\ effects (fst r) = []
  /\ messagePool (fst r) = None
  /\ map_to_list (messageChannel (fst r)) = []
  /\ isShutdown (fst r) = false.
Proof. vm_compute. repeat split. Qed.

(** The hypotheses of C4 hold for a raw-socket server with the
    constants numbered from zero. *)
Lemma serve_failure_routed_witness :
  New NetworkTcp [] = (after (New NetworkTcp []), Ok tt)
  /\ In (Go (ConnectionInit GnetServe))
        (effects (after (Run ":8888" None (after (New NetworkTcp []))))).
Proof.
  split; [reflexivity |].
  assert (Hkinds : MessageTypeError <> MessageTypePacket) by (vm_compute; discriminate).
  assert (Hactions : MessageErrorActionShutdown <> MessageErrorActionNone)
    by (vm_compute; discriminate).
  assert (Hnew : New NetworkTcp [] = (after (New NetworkTcp []), Ok tt))
    by reflexivity.
  assert (Hrun : Run ":8888" None (after (New NetworkTcp []))
                 = (after (Run ":8888" None (after (New NetworkTcp []))),
                    Ok RunParked))
    by (vm_compute; reflexivity).
  destruct (serve_failure_routed_bind_failure_returned
              NetworkTcp [] ":8888" None _ _ _ Hkinds Hactions Hnew Hrun)
    as [_ Hserve].
  destruct Hserve as [Hstarted _]; [left; reflexivity |].
  exact Hstarted.
Defined.


(** The hypotheses of C6 hold on the one-core server. *)
Lemma Error_envelope_stack_and_directive_witness :
  messagePool (tcpServer 1) = Some (NewPool 100 messageGenerator messageReleaser)
  /\ snd (handle {| t := MessageTypeError;
                    attrs := [AError (ErrExternal "serve");
                              AAction MessageErrorActionShutdown;
                              AString debugStack] |} (tcpServer 1))
     = snd (Shutdown (Some (ErrExternal "serve")) [debugStack] (tcpServer 1)).
Proof.
  assert (Hkinds : MessageTypeError <> MessageTypePacket) by (vm_compute; discriminate).
  assert (Hactions : MessageErrorActionShutdown <> MessageErrorActionNone)
    by (vm_compute; discriminate).
  assert (Hpool : messagePool (tcpServer 1)
                  = Some (NewPool 100 messageGenerator messageReleaser))
    by reflexivity.
  split; [exact Hpool |].
  destruct (Error_envelope_stack_and_directive (tcpServer 1) _ 0
              (ErrExternal "serve") MessageErrorActionShutdown
              Hkinds Hactions Hpool)
    as (_ & _ & _ & _ & Hshutdown & _).
  now rewrite (Hshutdown (tcpServer 1) eq_refl).
Defined.

(** The hypotheses of C7 hold on the WebSocket server that allows
    binary and ping: a text frame is refused, a binary frame is pushed. *)
Lemma websocket_allow_list_enforced_witness :
  conns websocketServer !! 1%N = Some (newWebsocketConn 7%N "10.0.0.1")
  /\ snd (websocketTurn 1%N 0 (ReadMessage WebsocketMessageTypeText [Byte.x01])
            websocketServer)
     = Panics (PanicError ErrWebsocketIllegalMessageType)
  /\ websocketTurn 1%N 0 (ReadMessage WebsocketMessageTypeBinary [Byte.x01])
       websocketServer
     = PushMessage 0 MessageTypePacket
         [AConn 1%N; ABytes [Byte.x01]; AInt WebsocketMessageTypeBinary]
         websocketServer.
Proof.
  assert (Hkinds : MessageTypeError <> MessageTypePacket) by (vm_compute; discriminate).
  assert (Hconn : conns websocketServer !! 1%N
                  = Some (newWebsocketConn 7%N "10.0.0.1"))
    by (vm_compute; reflexivity).
  split; [exact Hconn |].
  split.
  - destruct (websocket_allow_list_enforced websocketServer 1%N _ 0
                WebsocketMessageTypeText [Byte.x01] [] Hkinds Hconn)
      as [Hforbidden _].
    destruct Hforbidden as [-> _];
      [vm_compute; lia | vm_compute; discriminate | reflexivity].
  - destruct (websocket_allow_list_enforced websocketServer 1%N _ 0
                WebsocketMessageTypeBinary [Byte.x01] [] Hkinds Hconn)
      as (_ & Hpermitted & _).
    destruct Hpermitted as [-> _]; [right; vm_compute; reflexivity | reflexivity].
Defined.

(** The hypothesis of C10 holds for an HTTP server without options. *)
Lemma PushMessage_needs_pipeline_witness :
  New NetworkHttp [] = (after (New NetworkHttp []), Ok tt)
  /\ snd (PushMessage 0 MessageTypeError
            [AError (ErrExternal "serve"); AAction MessageErrorActionShutdown]
            (after (New NetworkHttp [])))
     = Panics nilDereference.
Proof.
  assert (Hnew : New NetworkHttp [] = (after (New NetworkHttp []), Ok tt))
    by reflexivity.
  split; [exact Hnew |].
  destruct (PushMessage_needs_pipeline NetworkHttp [] _ Hnew) as (_ & Hpush & _).
  now rewrite Hpush.
Defined.

End Concrete.
